(** * Workout planning engine: plan synthesis, repair, metrics, adaptation

    A shallow embedding of [backend/workout_engine.py] together with the
    data model of [backend/models.py] and the repository operations of
    [backend/database.py] that the engine calls.

    Conventions of the embedding.
    - Python [int] is [Z]; Python [float] is carried as an exact rational
      [Q].  Every float of the engine is a quotient of two integers that
      is compared against a short decimal literal, so the comparisons of
      the model and of binary64 agree as long as the integers involved
      stay below 2^49.
    - A pydantic model is a record; records live in modules of their own
      because the source reuses field names ([user_id], [day], ...).
    - A [Dict[str, Any]] and a decoded JSON document are values of [json];
      objects are finite maps keyed by strings.
    - A method that can raise returns in the monad [M]: the world (the
      repository tables and the number of identifiers drawn so far) is
      threaded through, and an exception keeps the world as it was when
      it was raised, as in Python.
    - [created_at]/[updated_at] timestamps are not carried.
    - The integers of the code meet a bounded representation in three
      places.  An [int] bound to an SQL statement must fit SQLite's
      signed 64-bit INTEGER, and a date must lie in the years 1 to 9999:
      both are modelled, with the [OverflowError] the libraries raise.
      CPython can also be set to refuse the conversion to decimal of an
      integer of more than 640 digits (4300 by default), which f-strings
      and [json.dumps] need.  The model renders every integer; the
      statements about a path that renders an integer the caller
      chooses are made for integers below that size ([plain]). *)

From Stdlib Require Import ZArith QArith Ascii String DecimalString.
From stdpp Require Import base option list gmap strings.

#[local] Set Warnings "-register-all".

Local Open Scope string_scope.
Local Open Scope list_scope.
Local Open Scope Z_scope.

(** ** Enumerations of [models.py] *)

Inductive ExperienceLevel := beginner | intermediate | advanced.

Inductive WorkoutDay := monday | tuesday | wednesday | thursday | friday.

(** The value of an enumeration member, as declared. *)
Definition WorkoutDay_value (d : WorkoutDay) : string :=
  match d with
  | monday => "monday"
  | tuesday => "tuesday"
  | wednesday => "wednesday"
  | thursday => "thursday"
  | friday => "friday"
  end.

Definition ExperienceLevel_value (l : ExperienceLevel) : string :=
  match l with
  | beginner => "beginner"
  | intermediate => "intermediate"
  | advanced => "advanced"
  end.

(** [WorkoutDay(s)]: the member whose value is [s], if any. *)
Definition WorkoutDay_of_value (s : string) : option WorkoutDay :=
  if String.eqb s "monday" then Some monday
  else if String.eqb s "tuesday" then Some tuesday
  else if String.eqb s "wednesday" then Some wednesday
  else if String.eqb s "thursday" then Some thursday
  else if String.eqb s "friday" then Some friday
  else None.

(** ** Records of [models.py] *)

Module Schedule.
Record t := mk {
  days_per_week : Z;
  session_duration : Z;
  preferred_times : list string
}.
End Schedule.

Module Constraints.
Record t := mk {
  injuries : list string;
  limitations : list string
}.
End Constraints.

Module PlannedExercise.
Record t := mk {
  exercise_id : string;
  exercise_name : string;
  sets : Z;
  reps : string;
  rest_seconds : Z;
  target_rpe : Z;
  notes : option string
}.
End PlannedExercise.

Module DayPlan.
Record t := mk {
  day : WorkoutDay;
  focus : string;
  exercises : list PlannedExercise.t;
  estimated_duration : Z
}.
End DayPlan.

Module CompletedExercise.
Record t := mk {
  exercise_id : string;
  exercise_name : string;
  completed_sets : Z;
  actual_reps : list Z;
  weight_used : option Q;
  rpe : Z;
  notes : option string
}.
End CompletedExercise.

Module ProgressionIndicators.
Record t := mk {
  strength_gains : bool;
  endurance_improvements : bool;
  form_quality : string
}.
End ProgressionIndicators.

Module UserProfile.
Record t := mk {
  user_id : string;
  goals : list string;
  experience_level : ExperienceLevel;
  equipment : list string;
  schedule : Schedule.t;
  constraints : Constraints.t
}.
End UserProfile.

Module WorkoutPlan.
Record t := mk {
  plan_id : string;
  user_id : string;
  week_number : Z;
  days : list DayPlan.t;
  adaptation_rationale : option string
}.
End WorkoutPlan.

Module WorkoutLog.
Record t := mk {
  log_id : string;
  user_id : string;
  plan_id : string;
  day : WorkoutDay;
  exercises : list CompletedExercise.t;
  session_rpe : Z;
  duration_minutes : Z;
  general_feedback : option string
}.
End WorkoutLog.

Module WeeklyMetrics.
Record t := mk {
  user_id : string;
  week_number : Z;
  adherence_rate : Q;
  average_rpe : Q;
  completed_sessions : Z;
  total_planned_sessions : Z;
  progression_indicators : ProgressionIndicators.t;
  concerns : list string
}.
End WeeklyMetrics.

(** ** Python values held in [Dict[str, Any]] fields and JSON documents *)

Inductive json :=
| JNull
| JBool (b : bool)
| JInt (z : Z)
| JFloat (q : Q)
| JString (s : string)
| JArray (l : list json)
| JObject (m : gmap string json).

(** Truth value of a Python object ([if v:]). *)
Definition truthy (v : json) : bool :=
  match v with
  | JNull => false
  | JBool b => b
  | JInt z => negb (Z.eqb z 0)
  | JFloat q => negb (Qeq_bool q 0)
  | JString s => negb (String.eqb s "")
  | JArray l => negb (Nat.eqb (length l) 0)
  | JObject m => negb (Nat.eqb (size m) 0)
  end.

(** ** The LangGraph state model *)

Module WorkoutState.
Record t := mk {
  user_profile : option UserProfile.t;
  current_week : Z;
  plan_history : list WorkoutPlan.t;
  current_plan : option WorkoutPlan.t;
  logs : list WorkoutLog.t;
  feedback_analysis : gmap string json;
  metrics : option WeeklyMetrics.t;
  adaptation_context : gmap string json;
  workflow_stage : string;
  error_context : option string
}.

(** [WorkoutState()] with every field at its declared default. *)
Definition default : t :=
  mk None 1 [] None [] ∅ None ∅ "plan_generation" None.

Definition set_user_profile (v : option UserProfile.t) (s : t) : t :=
  mk v (current_week s) (plan_history s) (current_plan s) (logs s)
     (feedback_analysis s) (metrics s) (adaptation_context s)
     (workflow_stage s) (error_context s).
Definition set_current_plan (v : option WorkoutPlan.t) (s : t) : t :=
  mk (user_profile s) (current_week s) (plan_history s) v (logs s)
     (feedback_analysis s) (metrics s) (adaptation_context s)
     (workflow_stage s) (error_context s).
Definition set_feedback_analysis (v : gmap string json) (s : t) : t :=
  mk (user_profile s) (current_week s) (plan_history s) (current_plan s)
     (logs s) v (metrics s) (adaptation_context s)
     (workflow_stage s) (error_context s).
Definition set_metrics (v : option WeeklyMetrics.t) (s : t) : t :=
  mk (user_profile s) (current_week s) (plan_history s) (current_plan s)
     (logs s) (feedback_analysis s) v (adaptation_context s)
     (workflow_stage s) (error_context s).
Definition set_adaptation_context (v : gmap string json) (s : t) : t :=
  mk (user_profile s) (current_week s) (plan_history s) (current_plan s)
     (logs s) (feedback_analysis s) (metrics s) v
     (workflow_stage s) (error_context s).
Definition set_workflow_stage (v : string) (s : t) : t :=
  mk (user_profile s) (current_week s) (plan_history s) (current_plan s)
     (logs s) (feedback_analysis s) (metrics s) (adaptation_context s)
     v (error_context s).
Definition set_error_context (v : option string) (s : t) : t :=
  mk (user_profile s) (current_week s) (plan_history s) (current_plan s)
     (logs s) (feedback_analysis s) (metrics s) (adaptation_context s)
     (workflow_stage s) v.
End WorkoutState.

(** ** Exceptions and results *)

Inductive exn :=
| ValueError (msg : string)
| AttributeError
| KeyError
| TypeError
| ZeroDivisionError
| ValidationError
| JSONDecodeError
| ModelCallError
| OverflowError.

Inductive result (A : Type) :=
| Return (a : A)
| Raise (e : exn).
Arguments Return {A} a.
Arguments Raise {A} e.

(** ** The repository ([database.py]) *)

(** The three tables the engine touches.  [users] and [workout_plans] are
    keyed by their primary key and written with INSERT OR REPLACE;
    [workout_logs] is read only through the join of [get_week_logs].
    An [int] bound to a statement must fit SQLite's INTEGER, a signed
    64-bit number: [sqlite3] raises [OverflowError] otherwise, before the
    statement runs.  A table holds the rows the code wrote, as the
    records they decode and validate to when they are read. *)
Record Database := mkDatabase {
  users : gmap string UserProfile.t;
  workout_plans : gmap string WorkoutPlan.t;
  workout_logs : list WorkoutLog.t
}.

Record World := mkWorld {
  db : Database;
  uuids_drawn : nat
}.

Definition M (A : Type) : Type := World -> result A * World.

Definition ret {A} (a : A) : M A := fun w => (Return a, w).
Definition raise {A} (e : exn) : M A := fun w => (Raise e, w).
Definition bind {A B} (m : M A) (f : A -> M B) : M B :=
  fun w =>
    match m w with
    | (Return a, w') => f a w'
    | (Raise e, w') => (Raise e, w')
    end.

(** [try: body except Exception as e: handler e]. *)
Definition try_except {A} (body : M A) (handler : exn -> M A) : M A :=
  fun w =>
    match body w with
    | (Return a, w') => (Return a, w')
    | (Raise e, w') => handler e w'
    end.

Notation "x <- m ;; k" := (bind m (fun x => k))
  (at level 100, m at next level, right associativity).

(** Attribute access on an [Optional[...]] field: [None.attr] raises. *)
Definition deref {A} (o : option A) : M A :=
  match o with
  | Some a => ret a
  | None => raise AttributeError
  end.

(** Whether an [int] can be bound as an SQLite INTEGER. *)
Definition fits_int64 (n : Z) : bool :=
  (- 2 ^ 63 <=? n) && (n <? 2 ^ 63).

Definition get_user_profile (user_id : string) : M (option UserProfile.t) :=
  fun w => (Return (users (db w) !! user_id), w).

(** The statement binds [plan.week_number]; the other parameters are
    text, the days as [json.dumps] renders them. *)
Definition save_workout_plan (plan : WorkoutPlan.t) : M unit :=
  fun w =>
    if fits_int64 (WorkoutPlan.week_number plan)
    then (Return tt,
          mkWorld (mkDatabase (users (db w))
                              (<[WorkoutPlan.plan_id plan := plan]>
                                 (workout_plans (db w)))
                              (workout_logs (db w)))
                  (uuids_drawn w))
    else (Raise OverflowError, w).

Definition get_workout_plan (plan_id : string) : M (option WorkoutPlan.t) :=
  fun w => (Return (workout_plans (db w) !! plan_id), w).

(** The rows of [workout_logs JOIN workout_plans ON plan_id] with the given
    user and week. *)
Definition in_week (d : Database) (user_id : string) (week_number : Z)
    (wl : WorkoutLog.t) : bool :=
  String.eqb (WorkoutLog.user_id wl) user_id &&
  match workout_plans d !! WorkoutLog.plan_id wl with
  | Some wp => Z.eqb (WorkoutPlan.week_number wp) week_number
  | None => false
  end.

(** The query binds [week_number]. *)
Definition get_week_logs (user_id : string) (week_number : Z) : M (list WorkoutLog.t) :=
  fun w =>
    if fits_int64 week_number
    then (Return (List.filter (in_week (db w) user_id week_number)
                              (workout_logs (db w))), w)
    else (Raise OverflowError, w).

(** ** Library and model boundaries *)

(** What the engine takes from its libraries: the JSON decoder, pydantic's
    validation of one day entry, the rendering of enumeration members and
    floats inside f-strings, and the text of a library exception. *)
Class Runtime := {
  json_loads : string -> option json;
  DayPlan_model_validate : json -> option DayPlan.t;
  format_day : WorkoutDay -> string;
  format_level : ExperienceLevel -> string;
  format_float : string -> Q -> string;
  library_message : exn -> string
}.

(** Outcome of [await self.llm.ainvoke(...)]: an exception, or a response
    whose [content] is the given text. *)
Inductive llm_result :=
| LlmRaises
| LlmReplies (content : string).

(** What one engine call meets outside the process: the model's answer to
    the (at most one) invocation the call makes, and the identifiers that
    successive [uuid.uuid4()] draws return. *)
Record Env := mkEnv {
  llm : llm_result;
  uuid4 : nat -> string
}.

(** ** Python built-ins used by the engine *)

Definition rbind {A B} (r : result A) (f : A -> result B) : result B :=
  match r with
  | Return a => f a
  | Raise e => Raise e
  end.

Notation "x <~ r ;; k" := (rbind r (fun x => k))
  (at level 100, r at next level, right associativity).

(** A computation that does not touch the world. *)
Definition lift {A} (r : result A) : M A := fun w => (r, w).

Definition deref_r {A} (o : option A) : result A :=
  match o with
  | Some a => Return a
  | None => Raise AttributeError
  end.

Fixpoint find_from (c : ascii) (s : string) (i : Z) : Z :=
  match s with
  | EmptyString => -1
  | String a s' => if Ascii.eqb a c then i else find_from c s' (i + 1)
  end.

(** [s.find(c)] *)
Definition str_find (s : string) (c : ascii) : Z := find_from c s 0.

Fixpoint rfind_from (c : ascii) (s : string) (i last : Z) : Z :=
  match s with
  | EmptyString => last
  | String a s' => rfind_from c s' (i + 1) (if Ascii.eqb a c then i else last)
  end.

(** [s.rfind(c)] *)
Definition str_rfind (s : string) (c : ascii) : Z := rfind_from c s 0 (-1).

Definition clamp_index (len i : Z) : Z :=
  if i <? 0 then Z.max (i + len) 0 else Z.min i len.

(** [s[start:stop]] *)
Definition py_slice (s : string) (start stop : Z) : string :=
  let len := Z.of_nat (String.length s) in
  let lo := clamp_index len start in
  let hi := clamp_index len stop in
  String.substring (Z.to_nat lo) (Z.to_nat (hi - lo)) s.

(** [str(n)] for an [int]. *)
Definition str_Z (n : Z) : string := NilZero.string_of_int (Z.to_int n).

(** [sub in s] for two strings. *)
Fixpoint str_contains (sub s : string) : bool :=
  String.prefix sub s ||
  match s with
  | EmptyString => false
  | String _ s' => str_contains sub s'
  end.

Definition is_JString (k : string) (v : json) : bool :=
  match v with
  | JString s => String.eqb s k
  | _ => false
  end.

(** [k in data] *)
Definition py_in (k : string) (data : json) : result bool :=
  match data with
  | JObject m => Return (match m !! k with Some _ => true | None => false end)
  | JArray l => Return (existsb (is_JString k) l)
  | JString s => Return (str_contains k s)
  | _ => Raise TypeError
  end.

(** [data[k]] for a string key. *)
Definition py_getitem (data : json) (k : string) : result json :=
  match data with
  | JObject m =>
      match m !! k with
      | Some v => Return v
      | None => Raise KeyError
      end
  | _ => Raise TypeError
  end.

(** [data.get(k, dflt)] *)
Definition py_get (data : json) (k : string) (dflt : json) : result json :=
  match data with
  | JObject m => Return (default dflt (m !! k))
  | _ => Raise AttributeError
  end.

Definition chars (s : string) : list string :=
  List.map (fun c => String c EmptyString) (list_ascii_of_string s).

(** The items a [for] loop (or a comprehension) draws from [v].  A dict
    yields its keys; here in the order of [map_to_list]. *)
Definition py_iter (v : json) : result (list json) :=
  match v with
  | JArray l => Return l
  | JObject m => Return (List.map (fun kv => JString (fst kv)) (map_to_list m))
  | JString s => Return (List.map JString (chars s))
  | _ => Raise TypeError
  end.

Definition as_str (v : json) : option string :=
  match v with
  | JString s => Some s
  | _ => None
  end.

(** [sep.join(v)] *)
Definition py_join (sep : string) (v : json) : result string :=
  items <~ py_iter v ;;
  match mapM as_str items with
  | Some strs => Return (String.concat sep strs)
  | None => Raise TypeError
  end.

(** Validation of an [Optional[str]] field. *)
Definition validate_optional_str (v : json) : result (option string) :=
  match v with
  | JNull => Return None
  | JString s => Return (Some s)
  | _ => Raise ValidationError
  end.

Definition Qltb (a b : Q) : bool := negb (Qle_bool b a).

(** [a / b] on two [int]s. *)
Definition truediv (a b : Z) : result Q :=
  if Z.eqb b 0 then Raise ZeroDivisionError
  else Return (Qdiv (inject_Z a) (inject_Z b)).

(** [sum(log.session_rpe for log in logs)] *)
Definition sum_session_rpe (logs : list WorkoutLog.t) : Z :=
  fold_left (fun acc log => acc + WorkoutLog.session_rpe log) logs 0.

(** [WeeklyMetrics(...)]: pydantic enforces [Field(ge=0.0, le=1.0)] on
    [adherence_rate]. *)
Definition WeeklyMetrics_new (user_id : string) (week_number : Z)
    (adherence_rate average_rpe : Q) (completed_sessions total_planned_sessions : Z)
    (progression_indicators : ProgressionIndicators.t) (concerns : list string)
    : result WeeklyMetrics.t :=
  if Qle_bool 0 adherence_rate && Qle_bool adherence_rate 1 then
    Return (WeeklyMetrics.mk user_id week_number adherence_rate average_rpe
              completed_sessions total_planned_sessions
              progression_indicators concerns)
  else Raise ValidationError.

(** ** The engine ([class WorkoutEngine]) *)

Section WorkoutEngine.
Context {rt : Runtime}.
Variable env : Env.

(** [str(e)] *)
Definition str_exn (e : exn) : string :=
  match e with
  | ValueError msg => msg
  | _ => library_message e
  end.

(** [await self.llm.ainvoke([...])] followed by [.content].  The prompt
    text is not carried: the answer is an input of the embedding. *)
Definition ainvoke : M string :=
  match llm env with
  | LlmRaises => raise ModelCallError
  | LlmReplies content => ret content
  end.

(** [str(uuid.uuid4())] *)
Definition fresh_uuid : M string :=
  fun w => (Return (uuid4 env (uuids_drawn w)),
            mkWorld (db w) (S (uuids_drawn w))).

Definition loads (s : string) : result json :=
  match json_loads s with
  | Some v => Return v
  | None => Raise JSONDecodeError
  end.

(** Validation of a list of raw day entries as [List[DayPlan]]. *)
Definition validate_days (items : list json) : result (list DayPlan.t) :=
  match mapM DayPlan_model_validate items with
  | Some ds => Return ds
  | None => Raise ValidationError
  end.

(** *** Templates *)

Definition push_ups_fallback_json (notes : string) : json :=
  JObject (list_to_map [
    ("exercise_id", JString "push_ups");
    ("exercise_name", JString "Push-ups");
    ("sets", JInt 3);
    ("reps", JString "8-12");
    ("rest_seconds", JInt 60);
    ("target_rpe", JInt 7);
    ("notes", JString notes)]).

Definition monday_fallback_json (notes : string) : json :=
  JObject (list_to_map [
    ("day", JString "monday");
    ("focus", JString "upper_body");
    ("exercises", JArray [push_ups_fallback_json notes]);
    ("estimated_duration", JInt 30)]).

(** The dictionary [_parse_plan_response] returns from its [except]. *)
Definition plan_response_fallback : json :=
  JObject (list_to_map [("days", JArray [monday_fallback_json "Focus on form"])]).

(** The dictionary [_parse_ai_response] returns from its [except]. *)
Definition ai_response_fallback : json :=
  JObject (list_to_map [
    ("days", JArray [monday_fallback_json "AI generation failed, using fallback"]);
    ("rationale", JString "Fallback plan due to AI parsing error")]).

Definition simple_plan_days (profile : UserProfile.t) : list DayPlan.t :=
  [ DayPlan.mk monday "upper_body"
      [ PlannedExercise.mk "push_ups" "Push-ups" 3 "8-15" 60 7
          (Some "Modify on knees if needed");
        PlannedExercise.mk "dumbbell_rows"
          (if existsb (String.eqb "dumbbells") (UserProfile.equipment profile)
           then "Dumbbell Rows" else "Resistance Band Rows")
          3 "10-12" 90 7 (Some "Keep back straight, squeeze shoulder blades");
        PlannedExercise.mk "planks" "Plank Hold" 3 "30-60 seconds" 60 6
          (Some "Keep straight body line") ]
      40;
    DayPlan.mk tuesday "lower_body"
      [ PlannedExercise.mk "squats" "Bodyweight Squats" 3 "12-20" 60 7
          (Some "Full depth, weight in heels");
        PlannedExercise.mk "lunges" "Forward Lunges" 3 "10 each leg" 60 7
          (Some "Keep front knee over ankle") ]
      35;
    DayPlan.mk wednesday "cardio"
      [ PlannedExercise.mk "jumping_jacks" "Jumping Jacks" 4 "30 seconds" 30 8
          (Some "High intensity intervals");
        PlannedExercise.mk "mountain_climbers" "Mountain Climbers" 3 "20 seconds" 40 7
          (Some "Keep hips level") ]
      25;
    DayPlan.mk thursday "upper_body"
      [ PlannedExercise.mk "push_ups" "Push-ups (Different Variation)" 3 "10-18" 60 8
          (Some "Try diamond or wide variations");
        PlannedExercise.mk "tricep_dips" "Tricep Dips" 3 "8-12" 60 7
          (Some "Use chair or bench") ]
      30;
    DayPlan.mk friday "full_body"
      [ PlannedExercise.mk "burpees" "Modified Burpees" 3 "5-10" 90 8
          (Some "Step back instead of jumping if needed");
        PlannedExercise.mk "squats" "Bodyweight Squats" 2 "15" 45 6
          (Some "Focus on form");
        PlannedExercise.mk "push_ups" "Push-ups" 2 "8-12" 45 6
          (Some "End the week strong!") ]
      35 ].

Definition _create_simple_plan (profile : UserProfile.t) (week_number : Z)
    : M WorkoutPlan.t :=
  let days := simple_plan_days profile in
  plan_id <- fresh_uuid ;;
  ret (WorkoutPlan.mk plan_id (UserProfile.user_id profile) week_number days
         (Some ("Week " +:+ str_Z week_number +:+ " plan customized for "
                +:+ format_level (UserProfile.experience_level profile)
                +:+ " level with available equipment: "
                +:+ String.concat ", " (UserProfile.equipment profile)))).

Definition _create_fallback_plan (profile : option UserProfile.t) (week_number : Z)
    : M WorkoutPlan.t :=
  plan_id <- fresh_uuid ;;
  p <- deref profile ;;
  ret (WorkoutPlan.mk plan_id (UserProfile.user_id p) week_number
         [ DayPlan.mk monday "full_body"
             [ PlannedExercise.mk "push_ups" "Push-ups" 3 "8-12" 60 7 None ]
             30 ]
         (Some "Fallback plan due to AI generation issue")).

(** *** Response parsing *)

Definition _parse_plan_response (response : string) : json :=
  let start := str_find response "{" in
  let end_ := str_rfind response "}" + 1 in
  let json_str := py_slice response start end_ in
  match loads json_str with
  | Return data => data
  | Raise _ => plan_response_fallback
  end.

Definition _parse_ai_response (response : string) : json :=
  let start := str_find response "{" in
  let end_ := str_rfind response "}" + 1 in
  let body :=
    if Z.eqb start (-1) || Z.eqb end_ 0 then
      Raise (ValueError "No JSON found in response")
    else
      let json_str := py_slice response start end_ in
      data <~ loads json_str ;;
      present <~ py_in "days" data ;;
      invalid <~ (if negb present then Return true
                  else (v <~ py_getitem data "days" ;; Return (negb (truthy v)))) ;;
      if invalid then Raise (ValueError "Invalid plan structure")
      else Return data
  in
  match body with
  | Return data => data
  | Raise _ => ai_response_fallback
  end.

(** *** Validation and repair *)

Fixpoint validate_days_loop (profile : option UserProfile.t)
    (days : list DayPlan.t) (errors : list string) : result (list string) :=
  match days with
  | [] => Return errors
  | day :: rest =>
      p <~ deref_r profile ;;
      let errors :=
        if Schedule.session_duration (UserProfile.schedule p) + 15
             <? DayPlan.estimated_duration day
        then errors ++ [format_day (DayPlan.day day) +:+ " exceeds time limit"]
        else errors in
      let errors :=
        match DayPlan.exercises day with
        | [] => errors ++ [format_day (DayPlan.day day) +:+ " has no exercises"]
        | _ :: _ => errors
        end in
      validate_days_loop profile rest errors
  end.

Definition _validate_plan_structure (plan : WorkoutPlan.t)
    (profile : option UserProfile.t) : result (list string) :=
  let errors := [] in
  let errors :=
    match WorkoutPlan.days plan with
    | [] => errors ++ ["No workout days defined"]
    | _ :: _ => errors
    end in
  validate_days_loop profile (WorkoutPlan.days plan) errors.

Definition placeholder_exercise : PlannedExercise.t :=
  PlannedExercise.mk "push_ups" "Push-ups" 2 "5-10" 60 6 None.

(** One turn of the loop of [_fix_plan_issues]. *)
Definition fix_day (day : DayPlan.t) : DayPlan.t :=
  match DayPlan.exercises day with
  | [] => DayPlan.mk (DayPlan.day day) (DayPlan.focus day)
            [placeholder_exercise] (DayPlan.estimated_duration day)
  | _ :: _ => day
  end.

Definition _fix_plan_issues (plan : WorkoutPlan.t) (errors : list string)
    (profile : option UserProfile.t) : WorkoutPlan.t :=
  WorkoutPlan.mk (WorkoutPlan.plan_id plan) (WorkoutPlan.user_id plan)
    (WorkoutPlan.week_number plan)
    (List.map fix_day (WorkoutPlan.days plan))
    (WorkoutPlan.adaptation_rationale plan).

(** *** Workflow nodes *)

(** The common shape of the [except] clauses: note the failure, keep
    the state. *)
Definition note_error (prefix : string) (state : WorkoutState.t) (e : exn)
    : M WorkoutState.t :=
  ret (WorkoutState.set_error_context (Some (prefix +:+ str_exn e)) state).

Definition _profile_intake_node (state : WorkoutState.t) : M WorkoutState.t :=
  try_except
    (current <- deref (WorkoutState.user_profile state) ;;
     profile <- get_user_profile (UserProfile.user_id current) ;;
     match profile with
     | Some p =>
         ret (WorkoutState.set_workflow_stage "profile_complete"
                (WorkoutState.set_user_profile (Some p) state))
     | None =>
         ret (WorkoutState.set_error_context (Some "Profile not found") state)
     end)
    (note_error "Profile intake error: " state).

Definition _plan_generation_node (state : WorkoutState.t) : M WorkoutState.t :=
  try_except
    (let week_number := WorkoutState.current_week state in
     (* _build_plan_generation_prompt reads profile.experience_level first *)
     profile <- deref (WorkoutState.user_profile state) ;;
     response <- ainvoke ;;
     let plan_data := _parse_plan_response response in
     plan_id <- fresh_uuid ;;
     raw_days <- lift (py_getitem plan_data "days") ;;
     rationale <- lift (py_get plan_data "rationale" (JString "Initial plan generation")) ;;
     days <- lift (match raw_days with
                   | JArray items => validate_days items
                   | _ => Raise ValidationError
                   end) ;;
     rationale <- lift (validate_optional_str rationale) ;;
     let plan := WorkoutPlan.mk plan_id (UserProfile.user_id profile)
                   week_number days rationale in
     ret (WorkoutState.set_workflow_stage "plan_generated"
            (WorkoutState.set_current_plan (Some plan) state)))
    (fun e =>
       let state := WorkoutState.set_error_context
                      (Some ("Plan generation error: " +:+ str_exn e)) state in
       plan <- _create_fallback_plan (WorkoutState.user_profile state)
                 (WorkoutState.current_week state) ;;
       ret (WorkoutState.set_current_plan (Some plan) state)).

(** The state is one object, updated in place: when the save raises, the
    handler notes the error on the state that already carries the fixed
    plan.  The body is therefore run in two parts, each under the
    handler, the second on the state the first leaves. *)
Definition _plan_validation_node (state : WorkoutState.t) : M WorkoutState.t :=
  let handler := note_error "Plan validation error: " in
  checked <-
    try_except
      (let profile := WorkoutState.user_profile state in
       plan <- deref (WorkoutState.current_plan state) ;;
       validation_errors <- lift (_validate_plan_structure plan profile) ;;
       ret (inl match validation_errors with
                | _ :: _ =>
                    let plan := _fix_plan_issues plan validation_errors profile in
                    (plan, WorkoutState.set_current_plan (Some plan) state)
                | [] => (plan, state)
                end))
      (fun e => state <- handler state e ;; ret (inr state)) ;;
  match checked with
  | inl (plan, state) =>
      try_except
        (_ <- save_workout_plan plan ;;
         ret (WorkoutState.set_workflow_stage "plan_validated" state))
        (handler state)
  | inr state => ret state
  end.

Definition _feedback_analysis_node (state : WorkoutState.t) : M WorkoutState.t :=
  try_except
    (let feedback_text :=
       default (JString "") (WorkoutState.feedback_analysis state !! "raw_feedback") in
     state <- (if truthy feedback_text then
                 response <- ainvoke ;;
                 insights <- lift (loads response) ;;
                 ret (WorkoutState.set_feedback_analysis
                        (<["insights" := insights]> (WorkoutState.feedback_analysis state))
                        state)
               else ret state) ;;
     ret (WorkoutState.set_workflow_stage "feedback_analyzed" state))
    (note_error "Feedback analysis error: " state).

Definition _metrics_calculation_node (state : WorkoutState.t) : M WorkoutState.t :=
  try_except
    (profile <- deref (WorkoutState.user_profile state) ;;
     let user_id := UserProfile.user_id profile in
     let week_number := WorkoutState.current_week state in
     logs <- get_week_logs user_id week_number ;;
     state <- (match logs with
               | _ :: _ =>
                   let total_planned :=
                     match WorkoutState.current_plan state with
                     | Some plan => Z.of_nat (length (WorkoutPlan.days plan))
                     | None => 5
                     end in
                   let completed_sessions := Z.of_nat (length logs) in
                   adherence_rate <- lift (truediv completed_sessions total_planned) ;;
                   avg_rpe <- lift (truediv (sum_session_rpe logs) (Z.of_nat (length logs))) ;;
                   let progression :=
                     ProgressionIndicators.mk
                       (Qltb avg_rpe 8 && Qltb (4 # 5) adherence_rate)
                       true
                       (if Qltb avg_rpe 7 then "improving" else "stable") in
                   metrics <- lift (WeeklyMetrics_new user_id week_number
                                      adherence_rate avg_rpe
                                      completed_sessions total_planned progression
                                      (if Qltb (17 # 2) avg_rpe then ["high_fatigue"] else [])) ;;
                   ret (WorkoutState.set_metrics (Some metrics) state)
               | [] => ret state
               end) ;;
     ret (WorkoutState.set_workflow_stage "metrics_calculated" state))
    (note_error "Metrics calculation error: " state).

Definition _build_adaptation_reasoning (metrics : option WeeklyMetrics.t)
    (feedback_insights : json) : string :=
  match metrics with
  | None => "No metrics available"
  | Some m =>
      "Adherence: " +:+ format_float ".1%" (WeeklyMetrics.adherence_rate m)
      +:+ ", Average RPE: " +:+ format_float ".1f" (WeeklyMetrics.average_rpe m)
      +:+ ", Completed: " +:+ str_Z (WeeklyMetrics.completed_sessions m)
      +:+ "/" +:+ str_Z (WeeklyMetrics.total_planned_sessions m)
  end.

Definition _adaptation_decision_node (state : WorkoutState.t) : M WorkoutState.t :=
  try_except
    (let metrics := WorkoutState.metrics state in
     let feedback_insights :=
       default (JObject ∅) (WorkoutState.feedback_analysis state !! "insights") in
     let adaptations : list string := [] in
     let adaptations :=
       match metrics with
       | Some m =>
           if Qltb (WeeklyMetrics.adherence_rate m) (3 # 5)
           then adaptations ++ ["reduce_volume"] else adaptations
       | None => adaptations
       end in
     let adaptations :=
       match metrics with
       | Some m =>
           if Qltb (17 # 2) (WeeklyMetrics.average_rpe m)
           then adaptations ++ ["deload_intensity"] else adaptations
       | None => adaptations
       end in
     pain_flags <- lift (py_get feedback_insights "pain_flags" JNull) ;;
     let adaptations :=
       if truthy pain_flags then adaptations ++ ["exercise_substitution"]
       else adaptations in
     schedule_conflicts <- lift (py_get feedback_insights "schedule_conflicts" JNull) ;;
     let adaptations :=
       if truthy schedule_conflicts then adaptations ++ ["adjust_timing"]
       else adaptations in
     let context : gmap string json :=
       <["reasoning" := JString (_build_adaptation_reasoning metrics feedback_insights)]>
         (<["adaptations" := JArray (List.map JString adaptations)]> ∅) in
     ret (WorkoutState.set_workflow_stage "adaptation_decided"
            (WorkoutState.set_adaptation_context context state)))
    (note_error "Adaptation decision error: " state).

Definition _rationale_generation_node (state : WorkoutState.t) : M WorkoutState.t :=
  try_except
    (let adaptations :=
       default (JArray []) (WorkoutState.adaptation_context state !! "adaptations") in
     rationale <- (if truthy adaptations then
                     _ <- lift (py_join ", " adaptations) ;;
                     ainvoke
                   else ret "Great work this week! Continuing with progressive overload.") ;;
     ret (WorkoutState.set_workflow_stage "rationale_generated"
            (WorkoutState.set_adaptation_context
               (<["rationale" := JString rationale]> (WorkoutState.adaptation_context state))
               state)))
    (note_error "Rationale generation error: " state).

(** *** Public API *)

Definition _generate_ai_plan (profile : UserProfile.t) (week_number : Z)
    : M WorkoutPlan.t :=
  response <- ainvoke ;;
  let plan_data := _parse_ai_response response in
  plan_id <- fresh_uuid ;;
  raw_days <- lift (py_getitem plan_data "days") ;;
  items <- lift (py_iter raw_days) ;;
  days <- lift (validate_days items) ;;
  rationale <- lift (py_get plan_data "rationale"
                       (JString ("AI-generated plan for week " +:+ str_Z week_number))) ;;
  rationale <- lift (validate_optional_str rationale) ;;
  ret (WorkoutPlan.mk plan_id (UserProfile.user_id profile) week_number days rationale).

Definition generate_plan (user_id : string) (week_number : Z) : M WorkoutPlan.t :=
  profile <- get_user_profile user_id ;;
  match profile with
  | None => raise (ValueError "User profile not found")
  | Some profile =>
      plan <- try_except (_generate_ai_plan profile week_number)
                (fun e => _create_simple_plan profile week_number) ;;
      _ <- save_workout_plan plan ;;
      ret plan
  end.

Definition get_plan (plan_id user_id : string) : M (option WorkoutPlan.t) :=
  plan <- get_workout_plan plan_id ;;
  match plan with
  | Some p =>
      if String.eqb (WorkoutPlan.user_id p) user_id then ret (Some p) else ret None
  | None => ret None
  end.
End WorkoutEngine.

(** * Specification-side definitions *)

Section Specification.
Context {rt : Runtime}.
Variable env : Env.

Definition no_days_finding : string := "No workout days defined".
Definition time_finding (day : DayPlan.t) : string :=
  format_day (DayPlan.day day) +:+ " exceeds time limit".
Definition empty_finding (day : DayPlan.t) : string :=
  format_day (DayPlan.day day) +:+ " has no exercises".

(** The violations as the specification lists them: per day, the
    time-budget finding and the no-exercises finding. *)
Definition spec_day_findings (profile : UserProfile.t) (day : DayPlan.t)
    : list string :=
  (if Schedule.session_duration (UserProfile.schedule profile) + 15
        <? DayPlan.estimated_duration day
   then [time_finding day] else [])
  ++ (match DayPlan.exercises day with
      | [] => [empty_finding day]
      | _ :: _ => []
      end).

Definition spec_violations (plan : WorkoutPlan.t) (profile : UserProfile.t)
    : list string :=
  (match WorkoutPlan.days plan with
   | [] => [no_days_finding]
   | _ :: _ => []
   end)
  ++ flat_map (spec_day_findings profile) (WorkoutPlan.days plan).

(** The validate-then-fix step of [_plan_validation_node], on the plan
    alone: the plan the node goes on to persist. *)
Definition repair (plan : WorkoutPlan.t) (profile : option UserProfile.t)
    : result WorkoutPlan.t :=
  validation_errors <~ _validate_plan_structure plan profile ;;
  Return (match validation_errors with
          | _ :: _ => _fix_plan_issues plan validation_errors profile
          | [] => plan
          end).

(** The denominator the metrics stage uses. *)
Definition total_planned (state : WorkoutState.t) : Z :=
  match WorkoutState.current_plan state with
  | Some plan => Z.of_nat (length (WorkoutPlan.days plan))
  | None => 5
  end.

(** The action tags in rule order, each kept when its rule fires. *)
Definition fired_tags (reduce deload substitute retime : bool) : list string :=
  (if reduce then ["reduce_volume"] else [])
  ++ (if deload then ["deload_intensity"] else [])
  ++ (if substitute then ["exercise_substitution"] else [])
  ++ (if retime then ["adjust_timing"] else []).

(** The list held under [key] by well-formed insights: an absent or null
    entry counts as empty. *)
Definition flag_list (insights : gmap string json) (key : string)
    : option (list json) :=
  match insights !! key with
  | None | Some JNull => Some []
  | Some (JArray l) => Some l
  | Some _ => None
  end.

(** The insights the decider reads: none recorded, or an object. *)
Definition insights_of (state : WorkoutState.t) : option (gmap string json) :=
  match WorkoutState.feedback_analysis state !! "insights" with
  | None => Some ∅
  | Some (JObject m) => Some m
  | Some _ => None
  end.

(** The generation path wired by [_build_workflow]:
    START -> profile_intake -> plan_generation -> plan_validation -> END. *)
Definition generation_workflow (state : WorkoutState.t) : M WorkoutState.t :=
  state <- _profile_intake_node state ;;
  state <- _plan_generation_node env state ;;
  _plan_validation_node state.

End Specification.

(** ** A reference runtime *)

Definition as_int (v : json) : option Z :=
  match v with
  | JInt z => Some z
  | _ => None
  end.

(** A required field of a JSON object, converted. *)
Definition field {A} (m : gmap string json) (k : string) (conv : json → option A)
    : option A :=
  match m !! k with
  | Some v => conv v
  | None => None
  end.

Definition as_day (v : json) : option WorkoutDay :=
  match v with
  | JString s => WorkoutDay_of_value s
  | _ => None
  end.

Definition as_optional_str (v : option json) : option (option string) :=
  match v with
  | None | Some JNull => Some None
  | Some (JString s) => Some (Some s)
  | Some _ => None
  end.

(** Validation of one exercise entry against the field declarations of
    [PlannedExercise], accepting only values that already have the
    declared type. *)
Definition strict_PlannedExercise_validate (v : json) : option PlannedExercise.t :=
  match v with
  | JObject m =>
      exercise_id ← field m "exercise_id" as_str;
      exercise_name ← field m "exercise_name" as_str;
      sets ← field m "sets" as_int;
      reps ← field m "reps" as_str;
      rest_seconds ← field m "rest_seconds" as_int;
      target_rpe ← field m "target_rpe" as_int;
      notes ← as_optional_str (m !! "notes");
      if (1 <=? target_rpe) && (target_rpe <=? 10)
      then Some (PlannedExercise.mk exercise_id exercise_name sets reps
                   rest_seconds target_rpe notes)
      else None
  | _ => None
  end.

Definition as_exercises (v : json) : option (list PlannedExercise.t) :=
  match v with
  | JArray l => mapM strict_PlannedExercise_validate l
  | _ => None
  end.

(** The same for a day entry, against [DayPlan]. *)
Definition strict_DayPlan_validate (v : json) : option DayPlan.t :=
  match v with
  | JObject m =>
      day ← field m "day" as_day;
      focus ← field m "focus" as_str;
      exercises ← field m "exercises" as_exercises;
      estimated_duration ← field m "estimated_duration" as_int;
      Some (DayPlan.mk day focus exercises estimated_duration)
  | _ => None
  end.

(** [q] rounded to the nearest integer, ties to even. *)
Definition round_half_even (q : Q) : Z :=
  let n := Qnum q in
  let d := Z.pos (Qden q) in
  let f := n / d in
  let r := 2 * (n - f * d) in
  if r <? d then f
  else if d <? r then f + 1
  else if Z.even f then f else f + 1.

(** One digit after the point. *)
Definition fixed1 (q : Q) : string :=
  let t := round_half_even (q * 10) in
  (if t <? 0 then "-" else "")
  +:+ str_Z (Z.abs t / 10) +:+ "." +:+ str_Z (Z.abs t mod 10).

Definition reference_format_float (spec : string) (q : Q) : string :=
  if String.eqb spec ".1f" then fixed1 q
  else if String.eqb spec ".1%" then fixed1 (q * 100) +:+ "%"
  else "".

Definition exn_name (e : exn) : string :=
  match e with
  | ValueError msg => msg
  | AttributeError => "AttributeError"
  | KeyError => "KeyError"
  | TypeError => "TypeError"
  | ZeroDivisionError => "division by zero"
  | ValidationError => "ValidationError"
  | JSONDecodeError => "JSONDecodeError"
  | ModelCallError => "ModelCallError"
  | OverflowError => "Python int too large to convert to SQLite INTEGER"
  end.

(** *** A decoder for the JSON of the examples

    Objects, arrays, strings without escapes, integers and the three
    literals, with JSON's whitespace.  A document outside this subset
    (a fraction, an exponent, an escape) is rejected. *)

Definition dq : ascii := "034".

Definition is_ws (c : ascii) : bool :=
  Ascii.eqb c " " || Ascii.eqb c "009" || Ascii.eqb c "010" || Ascii.eqb c "013".

Fixpoint skip_ws (cs : list ascii) : list ascii :=
  match cs with
  | c :: rest => if is_ws c then skip_ws rest else cs
  | [] => []
  end.

Definition digit_of (c : ascii) : option Z :=
  let n := Z.of_nat (nat_of_ascii c) in
  if (48 <=? n) && (n <=? 57) then Some (n - 48) else None.

Fixpoint scan_digits (cs : list ascii) (acc : Z) : Z * list ascii :=
  match cs with
  | c :: rest =>
      match digit_of c with
      | Some d => scan_digits rest (10 * acc + d)
      | None => (acc, cs)
      end
  | [] => (acc, [])
  end.

(** The characters of a string literal up to its closing quote. *)
Fixpoint scan_string (cs : list ascii) : option (string * list ascii) :=
  match cs with
  | [] => None
  | c :: rest =>
      if Ascii.eqb c dq then Some (EmptyString, rest)
      else if Ascii.eqb c "\" || (Z.of_nat (nat_of_ascii c) <? 32) then None
      else '(s, rest') ← scan_string rest; Some (String c s, rest')
  end.

Definition starts_with_digit (cs : list ascii) : bool :=
  match cs with
  | c :: _ => match digit_of c with Some _ => true | None => false end
  | [] => false
  end.

Definition starts_fraction_or_exponent (cs : list ascii) : bool :=
  match cs with
  | c :: _ => Ascii.eqb c "." || Ascii.eqb c "e" || Ascii.eqb c "E"
  | [] => false
  end.

Definition scan_int (negative : bool) (cs : list ascii) : option (json * list ascii) :=
  match cs with
  | c :: rest =>
      match digit_of c with
      | Some d =>
          let '(n, rest') := scan_digits rest d in
          if ((d =? 0) && starts_with_digit rest) || starts_fraction_or_exponent rest'
          then None
          else Some (JInt (if negative then - n else n), rest')
      | None => None
      end
  | [] => None
  end.

Fixpoint parse_value (fuel : nat) (cs : list ascii) {struct fuel}
    : option (json * list ascii) :=
  match fuel with
  | O => None
  | S fuel =>
      match skip_ws cs with
      | "{"%char :: rest =>
          match skip_ws rest with
          | "}"%char :: rest' => Some (JObject ∅, rest')
          | _ => parse_members fuel rest ∅
          end
      | "["%char :: rest =>
          match skip_ws rest with
          | "]"%char :: rest' => Some (JArray [], rest')
          | _ => parse_elements fuel rest []
          end
      | "n"%char :: "u"%char :: "l"%char :: "l"%char :: rest => Some (JNull, rest)
      | "t"%char :: "r"%char :: "u"%char :: "e"%char :: rest => Some (JBool true, rest)
      | "f"%char :: "a"%char :: "l"%char :: "s"%char :: "e"%char :: rest =>
          Some (JBool false, rest)
      | "-"%char :: rest => scan_int true rest
      | c :: rest =>
          if Ascii.eqb c dq then
            '(s, rest') ← scan_string rest; Some (JString s, rest')
          else scan_int false (c :: rest)
      | [] => None
      end
  end
with parse_elements (fuel : nat) (cs : list ascii) (acc : list json) {struct fuel}
    : option (json * list ascii) :=
  match fuel with
  | O => None
  | S fuel =>
      '(v, rest) ← parse_value fuel cs;
      match skip_ws rest with
      | ","%char :: rest' => parse_elements fuel rest' (acc ++ [v])
      | "]"%char :: rest' => Some (JArray (acc ++ [v]), rest')
      | _ => None
      end
  end
with parse_members (fuel : nat) (cs : list ascii) (acc : gmap string json) {struct fuel}
    : option (json * list ascii) :=
  match fuel with
  | O => None
  | S fuel =>
      match skip_ws cs with
      | c :: rest =>
          if Ascii.eqb c dq then
            '(k, rest) ← scan_string rest;
            match skip_ws rest with
            | ":"%char :: rest =>
                '(v, rest) ← parse_value fuel rest;
                match skip_ws rest with
                | ","%char :: rest' => parse_members fuel rest' (<[k := v]> acc)
                | "}"%char :: rest' => Some (JObject (<[k := v]> acc), rest')
                | _ => None
                end
            | _ => None
            end
          else None
      | [] => None
      end
  end.

Definition subset_json_loads (s : string) : option json :=
  let cs := list_ascii_of_string s in
  '(v, rest) ← parse_value (2 * length cs + 4) cs;
  match skip_ws rest with
  | [] => Some v
  | _ :: _ => None
  end.

(** The runtime of the examples. *)
Definition reference_runtime : Runtime := {|
  json_loads := subset_json_loads;
  DayPlan_model_validate := strict_DayPlan_validate;
  format_day := WorkoutDay_value;
  format_level := ExperienceLevel_value;
  format_float := reference_format_float;
  library_message := exn_name
|}.

(** ** Sample data *)

Module Sample.
(** The default profile [main.py] creates for a new user. *)
Definition alex : UserProfile.t :=
  UserProfile.mk "alex" ["general_fitness"] beginner ["bodyweight"]
    (Schedule.mk 5 45 ["morning"]) (Constraints.mk [] []).

Definition uuid (n : nat) : string := "plan-" +:+ str_Z (Z.of_nat n).

Definition week1_plan : WorkoutPlan.t :=
  WorkoutPlan.mk "week-1" "alex" 1 (simple_plan_days alex) None.

Definition log (n : Z) (day : WorkoutDay) (session_rpe : Z) : WorkoutLog.t :=
  WorkoutLog.mk ("log-" +:+ str_Z n) "alex" "week-1" day [] session_rpe 40 None.

Definition five_logs : list WorkoutLog.t :=
  [ log 1 monday 7; log 2 tuesday 6; log 3 wednesday 7;
    log 4 thursday 8; log 5 friday 6 ].

Definition world (logs : list WorkoutLog.t) : World :=
  mkWorld (mkDatabase {[ "alex" := alex ]} {[ "week-1" := week1_plan ]} logs) 0.

(** A run in which the model answers in prose. *)
Definition prose : Env := mkEnv (LlmReplies "Sorry, I cannot help with that.") uuid.

(** A model answer that wraps a well-formed payload of two days, the
    second without exercises, in prose. *)
Definition quoted (s : string) : string := String dq s +:+ String dq EmptyString.

Definition member (key value : string) : string := quoted key +:+ ": " +:+ value.

Definition push_ups_text : string :=
  "{" +:+ member "exercise_id" (quoted "push_ups")
  +:+ ", " +:+ member "exercise_name" (quoted "Push-ups")
  +:+ ", " +:+ member "sets" "3"
  +:+ ", " +:+ member "reps" (quoted "8-12")
  +:+ ", " +:+ member "rest_seconds" "60"
  +:+ ", " +:+ member "target_rpe" "7" +:+ "}".

Definition day_text (day focus exercises duration : string) : string :=
  "{" +:+ member "day" (quoted day)
  +:+ ", " +:+ member "focus" (quoted focus)
  +:+ ", " +:+ member "exercises" ("[" +:+ exercises +:+ "]")
  +:+ ", " +:+ member "estimated_duration" duration +:+ "}".



(** The same answer with a weekend day, which [WorkoutDay] does not have. *)
Definition weekend_answer : string :=
  "{" +:+ member "days" ("[" +:+ day_text "sunday" "cardio" push_ups_text "30" +:+ "]")
  +:+ "}".

Definition weekend : Env := mkEnv (LlmReplies weekend_answer) uuid.

(** A run in which the model call fails. *)
Definition outage : Env := mkEnv LlmRaises uuid.

(** The state of week 1 with the five-day plan as current plan. *)
Definition week1_state : WorkoutState.t :=
  WorkoutState.mk (Some alex) 1 [] (Some week1_plan) [] ∅ None ∅
    "plan_generation" None.

Definition six_logs : list WorkoutLog.t := five_logs ++ [log 6 friday 7].

(** The state of week 1 with a current plan that has no day. *)
Definition no_day_state : WorkoutState.t :=
  WorkoutState.mk (Some alex) 1 []
    (Some (WorkoutPlan.mk "empty" "alex" 1 [] None)) [] ∅ None ∅
    "plan_generation" None.

(** Metrics with adherence 0.5 and average exertion 9.0. *)
Definition strained : WeeklyMetrics.t :=
  WeeklyMetrics.mk "alex" 1 (1 # 2) 9 2 4
    (ProgressionIndicators.mk false true "stable") ["high_fatigue"].

Definition strained_state : WorkoutState.t :=
  WorkoutState.set_metrics (Some strained) week1_state.

(** A two-day plan: a monday without exercises and a tuesday of 75
    minutes, against the 45-minute sessions of the sample profile. *)
Definition rough_plan : WorkoutPlan.t :=
  WorkoutPlan.mk "rough" "alex" 1
    [ DayPlan.mk monday "upper_body" [] 30;
      DayPlan.mk tuesday "lower_body"
        [PlannedExercise.mk "squats" "Bodyweight Squats" 3 "12-20" 60 7 None] 75 ]
    None.
End Sample.

(** * Further operations

    The rest of the repository interface, the calendar exporter, the
    remaining public methods of the engine and the handlers of [main.py]
    that call them. *)

(** ** Rules of the adaptation decider *)

(** [metrics and metrics.adherence_rate < 0.6] *)
Definition reduce_rule (metrics : option WeeklyMetrics.t) : bool :=
  match metrics with
  | Some m => Qltb (WeeklyMetrics.adherence_rate m) (3 # 5)
  | None => false
  end.

(** [metrics and metrics.average_rpe > 8.5] *)
Definition deload_rule (metrics : option WeeklyMetrics.t) : bool :=
  match metrics with
  | Some m => Qltb (17 # 2) (WeeklyMetrics.average_rpe m)
  | None => false
  end.


(** The offset [day_mapping] gives each member of [WorkoutDay]. *)
Definition WorkoutDay_index (d : WorkoutDay) : Z :=
  match d with
  | monday => 0
  | tuesday => 1
  | wednesday => 2
  | thursday => 3
  | friday => 4
  end.

(** The primary keys of the three tables: a profile is stored under its
    user id, a plan under its plan id, and no two logs share a log id. *)
Definition keyed (d : Database) : Prop :=
  map_Forall (fun k p => UserProfile.user_id p = k) (users d)
  ∧ map_Forall (fun k p => WorkoutPlan.plan_id p = k) (workout_plans d)
  ∧ NoDup (List.map WorkoutLog.log_id (workout_logs d)).

(** ** Repository writes *)

Definition save_user_profile (user_profile : UserProfile.t) : M unit :=
  fun w =>
    (Return tt,
     mkWorld (mkDatabase
                (<[UserProfile.user_id user_profile := user_profile]> (users (db w)))
                (workout_plans (db w))
                (workout_logs (db w)))
             (uuids_drawn w)).

(** Outcome of a plain INSERT into a table with a primary key: the row
    is inserted, the key is taken ([sqlite3.IntegrityError]), or the
    statement is not run because a parameter cannot be bound. *)
Inductive insert_result (A : Type) :=
| Inserted (a : A)
| IntegrityError
| InsertRaises (e : exn).
Arguments Inserted {A} a.
Arguments IntegrityError {A}.
Arguments InsertRaises {A} e.

Definition has_log_id (log_id : string) (logs : list WorkoutLog.t) : bool :=
  existsb (fun wl => String.eqb (WorkoutLog.log_id wl) log_id) logs.

(** The statement binds [log.session_rpe] and [log.duration_minutes] as
    integers, the other parameters as text, the exercises as
    [json.dumps] renders them; the parameters are bound before the
    statement runs.  [workout_logs] has [log_id] as primary
    key and the statement is a plain INSERT: a second row with the same
    id is refused. *)
Definition save_workout_log (log : WorkoutLog.t) (w : World)
    : insert_result unit * World :=
  if negb (fits_int64 (WorkoutLog.session_rpe log)
           && fits_int64 (WorkoutLog.duration_minutes log))
  then (InsertRaises OverflowError, w)
  else if has_log_id (WorkoutLog.log_id log) (workout_logs (db w))
  then (IntegrityError, w)
  else (Inserted tt,
        mkWorld (mkDatabase (users (db w)) (workout_plans (db w))
                            (workout_logs (db w) ++ [log]))
                (uuids_drawn w)).

(** ** Request and response models of [models.py] *)

Module WorkoutLogCreate.
Record t := mk {
  plan_id : string;
  day : WorkoutDay;
  exercises : list CompletedExercise.t;
  session_rpe : Z;
  duration_minutes : Z;
  general_feedback : option string
}.
End WorkoutLogCreate.

(** [WorkoutLog(log_id=..., user_id=..., **log_data.model_dump())] *)
Definition log_of (log_id user_id : string) (log_data : WorkoutLogCreate.t)
    : WorkoutLog.t :=
  WorkoutLog.mk log_id user_id
    (WorkoutLogCreate.plan_id log_data) (WorkoutLogCreate.day log_data)
    (WorkoutLogCreate.exercises log_data) (WorkoutLogCreate.session_rpe log_data)
    (WorkoutLogCreate.duration_minutes log_data)
    (WorkoutLogCreate.general_feedback log_data).

Module AdaptationResponse.
Record t := mk {
  adaptation_id : string;
  rationale : string;
  next_plan_id : string;
  key_changes : list string
}.
End AdaptationResponse.

Module ProfileCreate.
Record t := mk {
  goals : list string;
  experience_level : ExperienceLevel;
  equipment : list string;
  schedule : Schedule.t;
  constraints : Constraints.t
}.
End ProfileCreate.

Module ProfileResponse.
Record t := mk {
  profile_id : string;
  status : string;
  message : string
}.
End ProfileResponse.

Module PlanGenerationResponse.
Record t := mk {
  plan_id : string;
  status : string;
  message : string
}.
End PlanGenerationResponse.

(** ** Calendar export ([calendar_export.py]) *)

Record Alarm := mkAlarm {
  alarm_action : string;
  alarm_description : string;
  alarm_trigger : Z
}.

(** An event of the calendar.  [dtstart] and [dtend] are minutes counted
    from midnight of day 0 of the proleptic ordinal; [alarm_trigger] is in
    minutes relative to the start. *)
Record Event := mkEvent {
  uid : string;
  dtstart : Z;
  dtend : Z;
  summary : string;
  description : string;
  location : string;
  categories : list string;
  alarms : list Alarm
}.

Record Calendar := mkCalendar {
  prodid : string;
  version : string;
  calscale : string;
  method : string;
  events : list Event
}.

(** [d.weekday()] for the date of ordinal [d]: monday is 0. *)
Definition weekday (d : Z) : Z := (d + 6) mod 7.

(** [datetime.combine(d, time(hour))] *)
Definition datetime_combine (d hour : Z) : Z := d * 1440 + hour * 60.

(** The date and the minute of the day of a moment. *)
Definition date_of (moment : Z) : Z := moment / 1440.
Definition minute_of_day (moment : Z) : Z := moment mod 1440.

Definition ascii_lower (c : ascii) : ascii :=
  let n := nat_of_ascii c in
  if (65 <=? n)%nat && (n <=? 90)%nat then ascii_of_nat (n + 32) else c.

(** [s.lower()] on ASCII text. *)
Fixpoint str_lower (s : string) : string :=
  match s with
  | EmptyString => EmptyString
  | String c s' => String (ascii_lower c) (str_lower s')
  end.

Definition newline : string := String "010" EmptyString.

(** [date.min] is the date of ordinal 1 and [date.max], the last day of
    the year 9999, the date of ordinal 3652059.  Arithmetic that would
    leave this range raises [OverflowError]; so does the construction of
    a [timedelta] of more than 999999999 days, which is then out of the
    range of every sum with a date as well. *)
Definition valid_date (d : Z) : bool := (1 <=? d) && (d <=? 3652059).
Definition valid_moment (moment : Z) : bool := valid_date (date_of moment).

(** An event whose start and end exist. *)
Definition event_fits (e : Event) : bool :=
  valid_moment (dtstart e) && valid_moment (dtend e).

Section CalendarExporter.
Context {rt : Runtime}.
(** [datetime.now().date()] as an ordinal, and [str.title]. *)
Variable today : Z.
Variable str_title : string -> string.

Definition days_until_monday : Z :=
  let days_until_monday := (7 - weekday today) mod 7 in
  if Z.eqb days_until_monday 0 then 7 else days_until_monday.

Definition start_date : Z := today + days_until_monday.

Definition day_mapping : gmap string Z :=
  list_to_map [("monday", 0); ("tuesday", 1); ("wednesday", 2);
               ("thursday", 3); ("friday", 4)].

Definition exercise_line (exercise : PlannedExercise.t) : string :=
  let line := "â€¢ " +:+ PlannedExercise.exercise_name exercise +:+ ": "
              +:+ str_Z (PlannedExercise.sets exercise) +:+ " sets of "
              +:+ PlannedExercise.reps exercise in
  match PlannedExercise.notes exercise with
  | Some notes =>
      if String.eqb notes "" then line else line +:+ " (" +:+ notes +:+ ")"
  | None => line
  end.

Definition description_lines (plan : WorkoutPlan.t) (workout_day : DayPlan.t)
    : list string :=
  let lines :=
    [ "Week " +:+ str_Z (WorkoutPlan.week_number plan) +:+ " - "
      +:+ str_title (DayPlan.focus workout_day) +:+ " Focus";
      "Estimated Duration: " +:+ str_Z (DayPlan.estimated_duration workout_day)
      +:+ " minutes";
      "";
      "Exercises:" ] in
  let lines := lines ++ List.map exercise_line (DayPlan.exercises workout_day) in
  match WorkoutPlan.adaptation_rationale plan with
  | Some rationale =>
      if String.eqb rationale "" then lines
      else lines ++ [""; "Notes: " +:+ rationale]
  | None => lines
  end.

(** The event built by one turn of the loop of [export_plan]. *)
Definition event_of (plan : WorkoutPlan.t) (workout_day : DayPlan.t) : Event :=
  let day_offset :=
    default 0 (day_mapping !! str_lower (WorkoutDay_value (DayPlan.day workout_day))) in
  let event_date := start_date + day_offset in
  let start_time := datetime_combine event_date 9 in
  let end_time := start_time + DayPlan.estimated_duration workout_day in
  mkEvent
    (WorkoutPlan.plan_id plan +:+ "_" +:+ format_day (DayPlan.day workout_day)
     +:+ "@workouttrainer.local")
    start_time end_time
    (str_title (DayPlan.focus workout_day) +:+ " Workout")
    (String.concat newline (description_lines plan workout_day))
    "Home Gym"
    ["Fitness"; "Workout"]
    [mkAlarm "DISPLAY" "Workout reminder" (-15)].

(** The loop of [export_plan]: the events of the days, in order, up to
    the first day whose date or end cannot be computed. *)
Fixpoint build_events (plan : WorkoutPlan.t) (days : list DayPlan.t)
    : result (list Event) :=
  match days with
  | [] => Return []
  | workout_day :: days =>
      let event := event_of plan workout_day in
      if event_fits event
      then events <~ build_events plan days ;; Return (event :: events)
      else Raise OverflowError
  end.

(** [export_plan]: the path of the file and the calendar written to it;
    the serialisation [to_ical] and the write itself are the library's
    and the file system's.  Nothing is written when the loop raises. *)
Definition export_plan (plan : WorkoutPlan.t) : result (string * Calendar) :=
  if valid_date start_date
  then events <~ build_events plan (WorkoutPlan.days plan) ;;
       let cal := mkCalendar "-//LLM Workout Trainer//Workout Plan//EN" "2.0"
                    "GREGORIAN" "PUBLISH" events in
       let filename := "workout_plan_" +:+ WorkoutPlan.plan_id plan +:+ ".ics" in
       Return ("exports/" +:+ filename, cal)
  else Raise OverflowError.

(** Whether every date [export_plan] computes for the plan exists. *)
Definition dates_in_range (plan : WorkoutPlan.t) : bool :=
  valid_date start_date
  && forallb (fun workout_day => event_fits (event_of plan workout_day))
       (WorkoutPlan.days plan).
End CalendarExporter.

(** ** Further public methods of the engine *)

Section WorkoutEngineMethods.
Context {rt : Runtime}.
Variable env : Env.
Variable today : Z.
Variable str_title : string -> string.

Definition log_workout (user_id : string) (log_data : WorkoutLogCreate.t)
    (w : World) : insert_result string * World :=
  let w1 := mkWorld (db w) (S (uuids_drawn w)) in
  let log := log_of (uuid4 env (uuids_drawn w)) user_id log_data in
  match save_workout_log log w1 with
  | (Inserted _, w2) => (Inserted (WorkoutLog.log_id log), w2)
  | (IntegrityError, w2) => (IntegrityError, w2)
  | (InsertRaises e, w2) => (InsertRaises e, w2)
  end.

Definition adapt_plan (user_id : string) (week_number : Z)
    : M AdaptationResponse.t :=
  profile <- get_user_profile user_id ;;
  logs <- get_week_logs user_id week_number ;;
  let state := WorkoutState.mk profile (week_number + 1) [] None logs ∅ None ∅
                 "adaptation" None in
  next_plan <- generate_plan env user_id (week_number + 1) ;;
  adaptation_id <- fresh_uuid env ;;
  ret (AdaptationResponse.mk adaptation_id
         "Plan adapted based on your progress and feedback"
         (WorkoutPlan.plan_id next_plan)
         ["Increased intensity"; "Added new exercises"]).

Definition export_calendar (plan_id user_id : string) : M (string * Calendar) :=
  plan <- get_plan plan_id user_id ;;
  match plan with
  | None => raise (ValueError "Plan not found")
  | Some plan => lift (export_plan today str_title plan)
  end.
End WorkoutEngineMethods.

(** ** Handlers of [main.py] *)

(** What a handler answers: a body, an [HTTPException] it raises, or an
    exception it lets through to the framework. *)
Inductive response (A : Type) :=
| Answer (a : A)
| HTTPException (status_code : Z) (detail : string)
| Unhandled (e : exn).
Arguments Answer {A} a.
Arguments HTTPException {A} status_code detail.
Arguments Unhandled {A} e.

Section Handlers.
Context {rt : Runtime}.
Variable env : Env.

(** [try: body except Exception as e: raise HTTPException(500, detail e)] *)
Definition or_500 {A} (detail : exn -> string) (body : M A)
    : World -> response A * World :=
  fun w =>
    match body w with
    | (Return a, w') => (Answer a, w')
    | (Raise e, w') => (HTTPException 500 (detail e), w')
    end.

(** The profile [generate_plan] stores for a user who has none. *)
Definition default_profile (current_user : string) : UserProfile.t :=
  UserProfile.mk current_user ["general_fitness"] beginner ["bodyweight"]
    (Schedule.mk 5 45 ["morning"]) (Constraints.mk [] []).

Definition create_profile_handler (profile : ProfileCreate.t) (current_user : string)
    : World -> response ProfileResponse.t * World :=
  or_500 str_exn
    (let user_profile :=
       UserProfile.mk current_user (ProfileCreate.goals profile)
         (ProfileCreate.experience_level profile) (ProfileCreate.equipment profile)
         (ProfileCreate.schedule profile) (ProfileCreate.constraints profile) in
     _ <- save_user_profile user_profile ;;
     ret (ProfileResponse.mk current_user "created" "Profile created successfully")).

Definition generate_plan_handler (week_number : Z) (current_user : string)
    : World -> response PlanGenerationResponse.t * World :=
  or_500 (fun e => "Plan generation failed: " +:+ str_exn e)
    (profile <- get_user_profile current_user ;;
     _ <- (match profile with
           | None => save_user_profile (default_profile current_user)
           | Some _ => ret tt
           end) ;;
     plan <- generate_plan env current_user week_number ;;
     ret (PlanGenerationResponse.mk (WorkoutPlan.plan_id plan) "generated"
            "Workout plan generated successfully")).


Definition adapt_plan_handler (user_id : string) (week_number : Z)
    (current_user : string) : World -> response AdaptationResponse.t * World :=
  if negb (String.eqb user_id current_user)
  then fun w => (HTTPException 403 "Access denied", w)
  else or_500 str_exn (adapt_plan env user_id week_number).
End Handlers.

(** ** Integers that are always rendered *)







(** ** Sample requests *)

Module SampleRequests.
(** A monday session of exertion 7 logged against the plan of week 1. *)
Definition session : WorkoutLogCreate.t :=
  WorkoutLogCreate.mk "week-1" monday [] 7 40 None.

(** The sample world once that session is logged under the first
    identifier drawn. *)
Definition logged : World :=
  mkWorld (mkDatabase {[ "alex" := Sample.alex ]}
                      {[ "week-1" := Sample.week1_plan ]}
                      [log_of (Sample.uuid 0) "alex" session]) 1.

(** A wednesday: day 3 of the proleptic Gregorian ordinal. *)
Definition a_wednesday : Z := 3.

(** The state of the first week the plan table cannot hold. *)
Definition far_week_state : WorkoutState.t :=
  WorkoutState.mk (Some Sample.alex) (2 ^ 63) [] None [] ∅ None ∅
    "plan_generation" None.


(** A plan with one monday of ten thousand million minutes, stored for
    the sample user. *)
Definition endless_plan : WorkoutPlan.t :=
  WorkoutPlan.mk "endless" "alex" 1
    [DayPlan.mk monday "cardio"
       [PlannedExercise.mk "walk" "Walk" 1 "1" 0 3 None] (10 ^ 10)]
    None.

Definition endless_world : World :=
  mkWorld (mkDatabase {[ "alex" := Sample.alex ]}
                      {[ "endless" := endless_plan ]} []) 0.
End SampleRequests.

(** * Verification *)

(** ** The validator *)

Section Validator.
Context {rt : Runtime}.

Lemma validate_days_loop_acc profile days errors :
  validate_days_loop (Some profile) days errors
  = Return (errors ++ flat_map (spec_day_findings profile) days).
Proof.
  revert errors.
  induction days as [|day rest IH]; intros errors; simpl.
  - by rewrite app_nil_r.
  - rewrite IH. f_equal. unfold spec_day_findings, time_finding, empty_finding.
    destruct (_ <? _); destruct (DayPlan.exercises day);
      simpl; rewrite <- ?app_assoc; simpl; by rewrite ?app_nil_r.
Qed.

Lemma time_finding_ne_empty_finding day : time_finding day ≠ empty_finding day.
Proof.
  unfold time_finding, empty_finding. intros H.
  apply String.app_inj in H. discriminate H.
Qed.

Lemma suffix_ne_no_days (label : string) :
  label +:+ " exceeds time limit" ≠ no_days_finding
  ∧ label +:+ " has no exercises" ≠ no_days_finding.
Proof.
  unfold no_days_finding.
  split; intros H;
    do 23 (destruct label as [|? label]; simpl in H; [discriminate H|];
           injection H as _ H);
    destruct label; discriminate H.
Qed.

Lemma day_finding_ne_no_days profile day x :
  In x (spec_day_findings profile day) → x ≠ no_days_finding.
Proof.
  unfold spec_day_findings, time_finding, empty_finding.
  pose proof (suffix_ne_no_days (format_day (DayPlan.day day))) as [H1 H2].
  intros Hin. apply in_app_or in Hin.
  destruct (_ <? _); destruct (DayPlan.exercises day);
    simpl in Hin; intuition (subst; auto).
Qed.

Lemma validate_plan_structure_spec plan profile :
  _validate_plan_structure plan (Some profile) = Return (spec_violations plan profile).
Proof.
  unfold _validate_plan_structure, spec_violations.
  rewrite validate_days_loop_acc. by destruct (WorkoutPlan.days plan).
Qed.

(** C4.  For every plan and profile the validator returns exactly the
    violations of the specification: the no-days finding iff the day list
    is empty; then, day by day, the time-budget finding iff the day's
    estimated duration is strictly above the session duration plus 15,
    and the no-exercises finding iff the day's exercise list is empty;
    nothing else. *)
Theorem validate_plan_structure_exact (plan : WorkoutPlan.t) (profile : UserProfile.t) :
  _validate_plan_structure plan (Some profile) = Return (spec_violations plan profile)
  ∧ (In no_days_finding (spec_violations plan profile) ↔ WorkoutPlan.days plan = [])
  ∧ (∀ day,
       (In (time_finding day) (spec_day_findings profile day)
        ↔ Schedule.session_duration (UserProfile.schedule profile) + 15
            < DayPlan.estimated_duration day)
       ∧ (In (empty_finding day) (spec_day_findings profile day)
          ↔ DayPlan.exercises day = [])
       ∧ (∀ x, In x (spec_day_findings profile day)
               → x = time_finding day ∨ x = empty_finding day)).
Proof.
  split; [|split].
  - apply validate_plan_structure_spec.
  - unfold spec_violations. destruct (WorkoutPlan.days plan) as [|d ds] eqn:E.
    + simpl. intuition.
    + split; [|discriminate]. intros Hin. exfalso.
      simpl in Hin. apply in_app_or in Hin.
      destruct Hin as [Hin|Hin].
      * by apply (day_finding_ne_no_days profile d) in Hin.
      * apply in_flat_map in Hin as (d' & _ & Hin).
        by apply (day_finding_ne_no_days profile d') in Hin.
  - intros day. unfold spec_day_findings.
    pose proof (time_finding_ne_empty_finding day) as Hne.
    destruct (Z.ltb_spec (Schedule.session_duration (UserProfile.schedule profile) + 15)
                         (DayPlan.estimated_duration day)) as [Hlt|Hge];
      destruct (DayPlan.exercises day) as [|e es]; simpl;
      repeat split; try tauto; try lia; try congruence;
      intuition (try lia; try congruence).
Qed.
End Validator.

(** ** Repair *)

Section Repair.
Context {rt : Runtime}.

Lemma fix_day_idempotent day : fix_day (fix_day day) = fix_day day.
Proof. unfold fix_day. by destruct day as [d f [|e es] n]. Qed.



Lemma fix_plan_issues_idempotent plan errors errors' profile profile' :
  _fix_plan_issues (_fix_plan_issues plan errors profile) errors' profile'
  = _fix_plan_issues plan errors profile.
Proof.
  unfold _fix_plan_issues. simpl. f_equal.
  rewrite List.map_map. apply List.map_ext, fix_day_idempotent.
Qed.





(** The validation node performs this repair on the current plan and
    persists the result; when the week number of the plan cannot be
    bound, the save raises and the node notes it on the state that
    already carries the repaired plan. *)
Lemma plan_validation_node_run state w plan profile :
  WorkoutState.current_plan state = Some plan →
  WorkoutState.user_profile state = Some profile →
  ∃ repaired,
    repair plan (Some profile) = Return repaired
    ∧ _plan_validation_node state w
      = if fits_int64 (WorkoutPlan.week_number plan)
        then (Return (WorkoutState.set_workflow_stage "plan_validated"
                        (WorkoutState.set_current_plan (Some repaired) state)),
              snd (save_workout_plan repaired w))
        else (Return (WorkoutState.set_error_context
                        (Some ("Plan validation error: " +:+ str_exn OverflowError))
                        (WorkoutState.set_current_plan (Some repaired) state)),
              w).
Proof.
  intros Hplan Hprofile.
  unfold repair, _plan_validation_node, try_except, bind, lift, note_error.
  rewrite Hplan, Hprofile. cbn [deref ret rbind].
  rewrite validate_plan_structure_spec. cbn [rbind].
  destruct (spec_violations plan profile).
  - exists plan. split; [done|].
    unfold save_workout_plan, ret.
    destruct (fits_int64 (WorkoutPlan.week_number plan));
      destruct state; simpl in *; by subst.
  - eexists. split; [reflexivity|].
    unfold save_workout_plan, ret. cbn [_fix_plan_issues WorkoutPlan.week_number].
    by destruct (fits_int64 (WorkoutPlan.week_number plan)).
Qed.

Lemma plan_validation_node_repairs state w plan profile :
  WorkoutState.current_plan state = Some plan →
  WorkoutState.user_profile state = Some profile →
  fits_int64 (WorkoutPlan.week_number plan) = true →
  ∃ repaired,
    repair plan (Some profile) = Return repaired
    ∧ _plan_validation_node state w
      = (Return (WorkoutState.set_workflow_stage "plan_validated"
                   (WorkoutState.set_current_plan (Some repaired) state)),
         snd (save_workout_plan repaired w)).
Proof.
  intros Hplan Hprofile Hfits.
  destruct (plan_validation_node_run state w plan profile Hplan Hprofile)
    as (repaired & Hrepair & Hrun).
  rewrite Hfits in Hrun. by exists repaired.
Qed.

Lemma validate_fixed_plan plan profile errors e es :
  _validate_plan_structure plan profile = Return errors →
  ∃ errors',
    _validate_plan_structure (_fix_plan_issues plan (e :: es) profile) profile
    = Return errors'.
Proof.
  destruct profile as [p|].
  - intros _. rewrite validate_plan_structure_spec. eauto.
  - unfold _validate_plan_structure, _fix_plan_issues.
    destruct (WorkoutPlan.days plan); [simpl; eauto|done].
Qed.

(** Running the validation node a second time, on the state and world the
    first run left, changes neither. *)
Lemma plan_validation_node_idempotent state w state1 w1 :
  _plan_validation_node state w = (Return state1, w1) →
  _plan_validation_node state1 w1 = (Return state1, w1).
Proof.
  destruct state as [up cw ph cp lg fa me ac ws ec].
  unfold _plan_validation_node, try_except, bind, lift, note_error, ret.
  cbn [WorkoutState.current_plan WorkoutState.user_profile].
  destruct cp as [plan|]; cbn [deref ret raise];
    [|intros [= <- <-]; reflexivity].
  destruct (_validate_plan_structure plan up) as [errors|e] eqn:Hv;
    [|intros [= <- <-]; cbn; by rewrite Hv].
  unfold save_workout_plan.
  destruct errors as [|e es];
    cbn [_fix_plan_issues WorkoutPlan.week_number];
    destruct (fits_int64 (WorkoutPlan.week_number plan)) eqn:Hfits;
    intros [= <- <-];
    cbn [WorkoutState.current_plan WorkoutState.user_profile
         WorkoutState.set_current_plan WorkoutState.set_workflow_stage
         WorkoutState.set_error_context deref ret].
  - rewrite Hv, Hfits. cbn. by rewrite insert_insert_eq.
  - rewrite Hv, Hfits. reflexivity.
  - destruct (validate_fixed_plan plan up _ e es Hv) as (errors' & ->).
    destruct errors'; rewrite ?fix_plan_issues_idempotent;
      cbn [_fix_plan_issues WorkoutPlan.week_number WorkoutPlan.plan_id];
      rewrite Hfits; cbn; by rewrite insert_insert_eq.
  - destruct (validate_fixed_plan plan up _ e es Hv) as (errors' & ->).
    destruct errors'; rewrite ?fix_plan_issues_idempotent;
      cbn [_fix_plan_issues WorkoutPlan.week_number WorkoutPlan.plan_id];
      rewrite Hfits; reflexivity.
Qed.
End Repair.

(** ** Rational comparisons *)

Lemma Qltb_lt (a b : Q) : Qltb a b = true ↔ (a < b)%Q.
Proof.
  unfold Qltb. rewrite negb_true_iff. split.
  - intros H. apply Qnot_le_lt. intros Hle.
    apply Qle_bool_iff in Hle. congruence.
  - intros H. destruct (Qle_bool b a) eqn:E; [|done].
    apply Qle_bool_iff in E. by apply Qlt_not_le in H.
Qed.

Lemma Qltb_ge (a b : Q) : Qltb a b = false ↔ (b <= a)%Q.
Proof.
  unfold Qltb. rewrite negb_false_iff. apply Qle_bool_iff.
Qed.

(** A quotient of a count by a positive count is a valid adherence rate
    exactly when the numerator does not exceed the denominator. *)
Lemma ratio_in_unit_interval (c t : Z) :
  0 <= c → 0 < t →
  Qle_bool 0 (inject_Z c / inject_Z t) && Qle_bool (inject_Z c / inject_Z t) 1
  = (c <=? t).
Proof.
  intros Hc Ht.
  destruct t as [|t|t]; try lia.
  assert (Qle_bool 0 (inject_Z c / inject_Z (Z.pos t)) = true) as ->.
  { apply Qle_bool_iff. unfold Qle, Qdiv, Qmult, Qinv, inject_Z. simpl. lia. }
  simpl. destruct (Z.leb_spec c (Z.pos t)) as [H|H].
  - apply Qle_bool_iff. unfold Qle, Qdiv, Qmult, Qinv, inject_Z. simpl. lia.
  - destruct (Qle_bool _ _) eqn:E; [|done].
    apply Qle_bool_iff in E.
    unfold Qle, Qdiv, Qmult, Qinv, inject_Z in E. simpl in E. lia.
Qed.

(** ** The metrics stage and the adaptation decider *)

Section Stages.
Context {rt : Runtime}.

Lemma sum_session_rpe_acc logs acc :
  fold_left (fun a log => a + WorkoutLog.session_rpe log) logs acc
  = acc + sum_session_rpe logs.
Proof.
  unfold sum_session_rpe. revert acc.
  induction logs as [|l ls IH]; intros acc; simpl; [lia|].
  rewrite IH, (IH (0 + _)). lia.
Qed.

(** The accumulated sum is the sum of the session exertions. *)
Lemma sum_session_rpe_cons log logs :
  sum_session_rpe (log :: logs) = WorkoutLog.session_rpe log + sum_session_rpe logs.
Proof.
  unfold sum_session_rpe at 1. simpl. by rewrite sum_session_rpe_acc.
Qed.

(** C8.  When the week has no logs, the metrics stage returns the state
    with its metrics field as it was (unset when it was unset), no error
    note added, and the stage tag advanced to metrics_calculated. *)
Theorem metrics_node_no_logs (state : WorkoutState.t) (w : World) (p : UserProfile.t) :
  WorkoutState.user_profile state = Some p →
  get_week_logs (UserProfile.user_id p) (WorkoutState.current_week state) w
    = (Return [], w) →
  ∃ state',
    _metrics_calculation_node state w = (Return state', w)
    ∧ WorkoutState.metrics state' = WorkoutState.metrics state
    ∧ (WorkoutState.metrics state = None → WorkoutState.metrics state' = None)
    ∧ WorkoutState.error_context state' = WorkoutState.error_context state
    ∧ WorkoutState.workflow_stage state' = "metrics_calculated".
Proof.
  intros Hp Hlogs. eexists.
  unfold _metrics_calculation_node, try_except, bind.
  rewrite Hp. cbn [deref ret]. rewrite Hlogs. simpl. eauto 10.
Qed.

(** C10.  When the week has strictly more logs than planned sessions, the
    metrics stage stores no metrics: the state keeps its metrics field
    and stage tag and gains the error note of the failure, which is the
    rejection of the adherence rate by WeeklyMetrics (above 1.0) when the
    planned count is positive, and the division by zero when the plan
    has no day. *)
Theorem metrics_node_too_many_logs (state : WorkoutState.t) (w : World)
    (p : UserProfile.t) (logs : list WorkoutLog.t) :
  WorkoutState.user_profile state = Some p →
  get_week_logs (UserProfile.user_id p) (WorkoutState.current_week state) w
    = (Return logs, w) →
  total_planned state < Z.of_nat (length logs) →
  ∃ state',
    _metrics_calculation_node state w = (Return state', w)
    ∧ WorkoutState.metrics state' = WorkoutState.metrics state
    ∧ WorkoutState.workflow_stage state' = WorkoutState.workflow_stage state
    ∧ WorkoutState.error_context state'
      = Some ("Metrics calculation error: "
              +:+ str_exn (if Z.eqb (total_planned state) 0
                           then ZeroDivisionError else ValidationError)).
Proof.
  intros Hp Hlogs Hlt.
  exists (WorkoutState.set_error_context
            (Some ("Metrics calculation error: "
                   +:+ str_exn (if Z.eqb (total_planned state) 0
                                then ZeroDivisionError else ValidationError)))
            state).
  split; [|done].
  unfold _metrics_calculation_node, try_except, bind.
  rewrite Hp. cbn [deref ret]. rewrite Hlogs.
  assert (0 <= total_planned state) as Hnn.
  { unfold total_planned. destruct (WorkoutState.current_plan state); lia. }
  destruct logs as [|l ls]; [simpl in Hlt; lia|].
  fold (total_planned state).
  unfold lift, truediv, note_error, ret.
  destruct (Z.eqb_spec (total_planned state) 0) as [H0|H0]; [by cbn|].
  assert ((Z.of_nat (length (l :: ls)) =? 0) = false) as ->
    by (apply Z.eqb_neq; simpl; lia).
  unfold WeeklyMetrics_new.
  rewrite ratio_in_unit_interval by lia.
  assert ((Z.of_nat (length (l :: ls)) <=? total_planned state) = false) as ->
    by (apply Z.leb_gt; lia).
  by cbn.
Qed.

(** C6, as amended.  For a non-empty list of week logs that is no longer
    than the planned-session count, the metrics stage stores metrics
    with: adherence = logs / planned (planned being the current plan's
    day count, or 5 without a current plan); average exertion = the mean
    of the session exertions; strength gain iff average < 8 and
    adherence > 0.8; endurance always true; form quality improving iff
    average < 7, else stable; concerns = [high_fatigue] iff average >
    8.5, else empty. *)
Theorem metrics_node_computes (state : WorkoutState.t) (w : World)
    (p : UserProfile.t) (logs : list WorkoutLog.t) :
  WorkoutState.user_profile state = Some p →
  get_week_logs (UserProfile.user_id p) (WorkoutState.current_week state) w
    = (Return logs, w) →
  logs ≠ [] →
  Z.of_nat (length logs) <= total_planned state →
  ∃ m,
    _metrics_calculation_node state w
      = (Return (WorkoutState.set_workflow_stage "metrics_calculated"
                   (WorkoutState.set_metrics (Some m) state)), w)
    ∧ WeeklyMetrics.adherence_rate m
      = (inject_Z (Z.of_nat (length logs)) / inject_Z (total_planned state))%Q
    ∧ WeeklyMetrics.average_rpe m
      = (inject_Z (sum_session_rpe logs) / inject_Z (Z.of_nat (length logs)))%Q
    ∧ WeeklyMetrics.completed_sessions m = Z.of_nat (length logs)
    ∧ WeeklyMetrics.total_planned_sessions m = total_planned state
    ∧ (ProgressionIndicators.strength_gains (WeeklyMetrics.progression_indicators m) = true
       ↔ (WeeklyMetrics.average_rpe m < 8)%Q
         ∧ (4 # 5 < WeeklyMetrics.adherence_rate m)%Q)
    ∧ ProgressionIndicators.endurance_improvements
        (WeeklyMetrics.progression_indicators m) = true
    ∧ ((WeeklyMetrics.average_rpe m < 7)%Q →
       ProgressionIndicators.form_quality (WeeklyMetrics.progression_indicators m)
       = "improving")
    ∧ ((7 <= WeeklyMetrics.average_rpe m)%Q →
       ProgressionIndicators.form_quality (WeeklyMetrics.progression_indicators m)
       = "stable")
    ∧ ((17 # 2 < WeeklyMetrics.average_rpe m)%Q →
       WeeklyMetrics.concerns m = ["high_fatigue"])
    ∧ ((WeeklyMetrics.average_rpe m <= 17 # 2)%Q →
       WeeklyMetrics.concerns m = []).
Proof.
  intros Hp Hlogs Hne Hle.
  destruct logs as [|l ls]; [done|].
  assert (0 < total_planned state) as Hpos by (simpl in Hle; lia).
  unfold _metrics_calculation_node, try_except, bind.
  rewrite Hp. cbn [deref ret]. rewrite Hlogs.
  fold (total_planned state).
  unfold lift, truediv.
  assert ((total_planned state =? 0) = false) as -> by (apply Z.eqb_neq; lia).
  assert ((Z.of_nat (length (l :: ls)) =? 0) = false) as ->
    by (apply Z.eqb_neq; simpl; lia).
  unfold WeeklyMetrics_new.
  rewrite ratio_in_unit_interval by lia.
  assert ((Z.of_nat (length (l :: ls)) <=? total_planned state) = true) as ->
    by (apply Z.leb_le; lia).
  eexists. split; [reflexivity|].
  cbn [WeeklyMetrics.adherence_rate WeeklyMetrics.average_rpe
       WeeklyMetrics.completed_sessions WeeklyMetrics.total_planned_sessions
       WeeklyMetrics.progression_indicators WeeklyMetrics.concerns
       ProgressionIndicators.strength_gains
       ProgressionIndicators.endurance_improvements
       ProgressionIndicators.form_quality].
  repeat (split; [reflexivity|]).
  split.
  { rewrite andb_true_iff, !Qltb_lt. tauto. }
  split; [reflexivity|].
  split; [intros H; apply Qltb_lt in H; by rewrite H|].
  split; [intros H; apply Qltb_ge in H; by rewrite H|].
  split; [intros H; apply Qltb_lt in H; by rewrite H|].
  intros H; apply Qltb_ge in H; by rewrite H.
Qed.

(** *** The adaptation decider *)

Lemma truthy_flag_list insights key l :
  flag_list insights key = Some l →
  truthy (default JNull (insights !! key)) = negb (Nat.eqb (length l) 0).
Proof.
  unfold flag_list. destruct (insights !! key) as [[]|]; intros [= <-]; done.
Qed.

End Stages.

(** ** Workflow nodes and failures *)

Section Workflow.
Context {rt : Runtime}.
Variable env : Env.

(** A node whose [except] clause only notes the error always returns. *)
Lemma noting_node_returns (body : M WorkoutState.t) prefix state w :
  ∃ state' w', try_except body (note_error prefix state) w = (Return state', w').
Proof.
  unfold try_except. destruct (body w) as [[a|e] w']; [eauto|].
  unfold note_error, ret. eauto.
Qed.

(** The validation node runs its body in two guarded parts. *)
Lemma plan_validation_node_returns state w :
  ∃ state' w', _plan_validation_node state w = (Return state', w').
Proof.
  unfold _plan_validation_node. cbv zeta.
  match goal with |- context [bind ?m ?k w] => set (first := m) end.
  assert (∃ checked w1, first w = (Return checked, w1)) as (checked & w1 & E).
  { subst first. unfold try_except.
    match goal with
    | |- context [let (_, _) := ?b w in _] => destruct (b w) as [[a|e'] w2]
    end; [eauto|].
    unfold bind, note_error, ret. eauto. }
  unfold bind. rewrite E.
  destruct checked as [[plan state1]|state1];
    [apply noting_node_returns|unfold ret; eauto].
Qed.

Lemma guarded_nodes_return (state : WorkoutState.t) (w : World) :
  (∃ state' w', _profile_intake_node state w = (Return state', w'))
  ∧ (∃ state' w', _plan_validation_node state w = (Return state', w'))
  ∧ (∃ state' w', _feedback_analysis_node env state w = (Return state', w'))
  ∧ (∃ state' w', _metrics_calculation_node state w = (Return state', w'))
  ∧ (∃ state' w', _adaptation_decision_node state w = (Return state', w'))
  ∧ (∃ state' w', _rationale_generation_node env state w = (Return state', w')).
Proof.
  split; [apply noting_node_returns|].
  split; [apply plan_validation_node_returns|].
  repeat split; apply noting_node_returns.
Qed.

Lemma plan_generation_node_returns_with_profile state w p :
  WorkoutState.user_profile state = Some p →
  ∃ state' w', _plan_generation_node env state w = (Return state', w').
Proof.
  intros Hp. unfold _plan_generation_node, try_except.
  match goal with |- context [let (_, _) := ?b w in _] => destruct (b w) as [[a|e] w'] end;
    [eauto|].
  unfold _create_fallback_plan, bind, fresh_uuid.
  cbn [WorkoutState.user_profile WorkoutState.set_error_context].
  rewrite Hp. cbn [deref ret]. eauto.
Qed.

(** C2, the failing stage.  Started on a state without user profile, the
    plan-generation stage raises: the guarded body fails while building
    the prompt, and the handler's call of the fallback-plan constructor
    dereferences the absent profile again, outside any guard. *)
Theorem plan_generation_node_raises_without_profile
    (state : WorkoutState.t) (w : World) :
  _plan_generation_node env (WorkoutState.set_user_profile None state) w
  = (Raise AttributeError, mkWorld (db w) (S (uuids_drawn w))).
Proof. reflexivity. Qed.

(** The same failure through the wired path, from the default state. *)
Lemma generation_workflow_raises_on_default (w : World) :
  generation_workflow env WorkoutState.default w
  = (Raise AttributeError, mkWorld (db w) (S (uuids_drawn w))).
Proof. reflexivity. Qed.
End Workflow.

(** ** The public operations *)

Section PublicAPI.
Context {rt : Runtime}.
Variable env : Env.


(** Whatever the response, the parser hands back a dictionary whose
    [days] entry is truthy. *)
Lemma parse_ai_response_days response :
  ∃ m v, _parse_ai_response response = JObject m
         ∧ m !! "days" = Some v ∧ truthy v = true.
Proof.
  assert (∃ m v, ai_response_fallback = JObject m
                 ∧ m !! "days" = Some v ∧ truthy v = true) as Hfb.
  { eexists _, _. split; [reflexivity|]. split; reflexivity. }
  unfold _parse_ai_response.
  destruct (_ || _); [exact Hfb|].
  destruct (loads _) as [data|e]; [|exact Hfb]. cbn [rbind].
  destruct data as [| | | | |l|m]; cbn [py_in rbind]; try exact Hfb.
  - destruct (negb _); exact Hfb.
  - destruct (negb _); exact Hfb.
  - destruct (m !! "days") as [v|] eqn:Hv; cbn [negb rbind py_getitem];
      [|exact Hfb].
    rewrite Hv. cbn [rbind].
    destruct (truthy v) eqn:Ht; cbn [negb]; [|exact Hfb].
    eauto.
Qed.

Lemma py_iter_truthy v items :
  truthy v = true → py_iter v = Return items → items ≠ [].
Proof.
  destruct v as [| | | |s|l|m]; try done; cbn [truthy py_iter];
    intros Ht [= <-].
  - destruct s; [done|]. done.
  - by destruct l.
  - rewrite <- length_map_to_list in Ht. by destruct (map_to_list m).
Qed.

Lemma validate_days_length items ds :
  validate_days items = Return ds → length ds = length items.
Proof.
  unfold validate_days.
  destruct (mapM DayPlan_model_validate items) as [ds'|] eqn:E; [|done].
  intros [= <-]. symmetry. by apply length_mapM in E.
Qed.

Lemma generate_ai_plan_result profile week_number w plan w' :
  _generate_ai_plan env profile week_number w = (Return plan, w') →
  WorkoutPlan.days plan ≠ []
  ∧ WorkoutPlan.user_id plan = UserProfile.user_id profile
  ∧ WorkoutPlan.week_number plan = week_number
  ∧ db w' = db w.
Proof.
  unfold _generate_ai_plan, bind, ainvoke, fresh_uuid, lift, ret, raise.
  destruct (llm env) as [|response]; [done|].
  destruct (parse_ai_response_days response) as (m & v & -> & Hv & Ht).
  cbn [py_getitem py_get]. rewrite Hv.
  destruct (py_iter v) as [items|] eqn:Hitems; [|done].
  destruct (validate_days items) as [ds|] eqn:Hds; [|done].
  destruct (validate_optional_str _) as [r|]; [|done].
  intros [= <- <-]. cbn. repeat split.
  apply validate_days_length in Hds.
  pose proof (py_iter_truthy _ _ Ht Hitems).
  destruct ds; [by destruct items|done].
Qed.



Lemma generate_ai_plan_db profile week_number w r w' :
  _generate_ai_plan env profile week_number w = (r, w') → db w' = db w.
Proof.
  unfold _generate_ai_plan, bind, ainvoke, fresh_uuid, lift, ret, raise.
  destruct (llm env); [by intros [= _ <-]|].
  repeat (match goal with
          | |- context [match ?r with Return _ => _ | Raise _ => _ end] =>
              destruct r
          end; try by intros [= _ <-]).
Qed.

(** The run of [generate_plan] for a stored profile: the plan is the AI
    plan or the template, and the save decides the outcome. *)
Lemma generate_plan_run user_id week_number w profile :
  users (db w) !! user_id = Some profile →
  ∃ plan n,
    generate_plan env user_id week_number w
    = (if fits_int64 week_number
       then (Return plan,
             mkWorld (mkDatabase (users (db w))
                        (<[WorkoutPlan.plan_id plan := plan]> (workout_plans (db w)))
                        (workout_logs (db w))) n)
       else (Raise OverflowError, mkWorld (db w) n))
    ∧ WorkoutPlan.user_id plan = UserProfile.user_id profile
    ∧ WorkoutPlan.week_number plan = week_number
    ∧ match _generate_ai_plan env profile week_number w with
      | (Return ai_plan, _) => plan = ai_plan
      | (Raise _, _) => WorkoutPlan.days plan = simple_plan_days profile
      end.
Proof.
  intros Hp.
  unfold generate_plan, bind, get_user_profile. rewrite Hp.
  unfold try_except.
  destruct (_generate_ai_plan env profile week_number w) as [[ai|e] w1] eqn:Hai.
  - pose proof (generate_ai_plan_db _ _ _ _ _ Hai) as Hdb.
    apply generate_ai_plan_result in Hai as (_ & Hu & Hw & _).
    exists ai, (uuids_drawn w1). unfold save_workout_plan, ret.
    rewrite Hw, Hdb. split; [|done].
    destruct (fits_int64 week_number); [done|].
    destruct w1; cbn in *; by subst.
  - pose proof (generate_ai_plan_db _ _ _ _ _ Hai) as Hdb.
    eexists (WorkoutPlan.mk _ _ _ _ _), (S (uuids_drawn w1)).
    unfold _create_simple_plan, bind, fresh_uuid, save_workout_plan, ret.
    cbn [WorkoutPlan.week_number WorkoutPlan.plan_id WorkoutPlan.user_id
         WorkoutPlan.days db uuids_drawn users workout_plans workout_logs].
    rewrite Hdb. split; [|done].
    by destruct (fits_int64 week_number).
Qed.


(** An answer without any opening brace never reaches the decoder: the
    parser's own one-day structure becomes the plan, for every runtime
    whose validation accepts that structure's day. *)
Lemma generate_plan_without_brace user_id week_number w profile response day :
  llm env = LlmReplies response →
  str_find response "{" = -1 →
  DayPlan_model_validate (monday_fallback_json "AI generation failed, using fallback")
    = Some day →
  users (db w) !! user_id = Some profile →
  fits_int64 week_number = true →
  ∃ plan w',
    generate_plan env user_id week_number w = (Return plan, w')
    ∧ WorkoutPlan.days plan = [day].
Proof.
  intros Hllm Hfind Hday Hp Hfits.
  unfold generate_plan, bind, get_user_profile. rewrite Hp.
  unfold try_except, _generate_ai_plan, bind, ainvoke, fresh_uuid, lift, ret.
  rewrite Hllm. unfold _parse_ai_response. rewrite Hfind.
  cbn [Z.eqb orb Pos.eqb].
  change (py_getitem ai_response_fallback "days")
    with (Return (JArray [monday_fallback_json "AI generation failed, using fallback"])).
  cbn [py_iter]. unfold validate_days. cbn [mapM]. rewrite Hday. cbn [mbind option_bind mret option_ret].
  change (py_get ai_response_fallback "rationale" _)
    with (Return (JString "Fallback plan due to AI parsing error")).
  cbn [validate_optional_str]. unfold save_workout_plan.
  cbn [WorkoutPlan.week_number]. rewrite Hfits.
  eexists _, _. split; reflexivity.
Qed.


(** C9.  The lookup returns, without changing the world, the plan
    stored under the plan id when there is one and its owner is the
    requesting user, and nothing in every other case. *)
Theorem get_plan_ownership (plan_id user_id : string) (w : World) :
  ∃ found,
    get_plan plan_id user_id w = (Return found, w)
    ∧ (∀ plan, found = Some plan
               ↔ workout_plans (db w) !! plan_id = Some plan
                 ∧ WorkoutPlan.user_id plan = user_id)
    ∧ (found = None
       ↔ ∀ plan, workout_plans (db w) !! plan_id = Some plan
                 → WorkoutPlan.user_id plan ≠ user_id).
Proof.
  unfold get_plan, bind, get_workout_plan, ret.
  destruct (workout_plans (db w) !! plan_id) as [p|].
  - destruct (String.eqb_spec (WorkoutPlan.user_id p) user_id) as [Heq|Hne].
    + exists (Some p). split; [done|]. split.
      * intros plan. split; [by intros [= <-]|by intros [[= <-] _]].
      * split; [done|]. intros H. by destruct (H p eq_refl).
    + exists None. split; [done|]. split.
      * intros plan. split; [done|]. intros [[= <-] ?]. done.
      * split; [|done]. by intros _ plan [= <-].
  - exists None. split; [done|]. split.
    + intros plan. split; [done|]. by intros [? _].
    + split; [|done]. by intros _ plan.
Qed.
End PublicAPI.

(** * Worked examples *)

Module Examples.
Import Sample.
#[local] Existing Instance reference_runtime.

(** *** Plan generation *)

(** The unparseable path: with a stored profile, week 1 and a model
    answer that contains no JSON at all, the operation returns the
    parser's own structure as the plan, a single monday. *)
Lemma generate_plan_unparseable_one_day :
  ∃ plan w',
    generate_plan prose "alex" 1 (world []) = (Return plan, w')
    ∧ List.map DayPlan.day (WorkoutPlan.days plan) = [monday]
    ∧ WorkoutPlan.adaptation_rationale plan
      = Some "Fallback plan due to AI parsing error".
Proof. eexists _, _. split; [reflexivity|]. split; reflexivity. Qed.


(** An answer whose day does not validate is replaced by the template. *)
Lemma generate_plan_weekend_answer :
  ∃ plan w',
    generate_plan weekend "alex" 1 (world []) = (Return plan, w')
    ∧ WorkoutPlan.days plan = simple_plan_days alex.
Proof. eexists _, _. split; reflexivity. Qed.




(** *** Metrics *)

Lemma metrics_node_computes_witness :
  (WorkoutState.user_profile week1_state = Some alex
   ∧ get_week_logs "alex" 1 (world five_logs) = (Return five_logs, world five_logs)
   ∧ five_logs ≠ []
   ∧ Z.of_nat (length five_logs) <= total_planned week1_state)
  ∧ ∃ m,
      _metrics_calculation_node week1_state (world five_logs)
        = (Return (WorkoutState.set_workflow_stage "metrics_calculated"
                     (WorkoutState.set_metrics (Some m) week1_state)),
           world five_logs)
      ∧ (WeeklyMetrics.adherence_rate m == 1)%Q
      ∧ (WeeklyMetrics.average_rpe m == 68 # 10)%Q
      ∧ ProgressionIndicators.strength_gains (WeeklyMetrics.progression_indicators m) = true
      ∧ ProgressionIndicators.endurance_improvements
          (WeeklyMetrics.progression_indicators m) = true
      ∧ ProgressionIndicators.form_quality (WeeklyMetrics.progression_indicators m)
        = "improving"
      ∧ WeeklyMetrics.concerns m = [].
Proof.
  assert (five_logs ≠ []) as Hne by discriminate.
  assert (Z.of_nat (length five_logs) <= total_planned week1_state) as Hle
    by (vm_compute; discriminate).
  split; [by repeat split|].
  destruct (metrics_node_computes week1_state (world five_logs) alex five_logs
              eq_refl eq_refl Hne Hle)
    as (m & Hrun & Hadh & Havg & _ & _ & Hstrength & Hend & Himp & _ & _ & Hcalm).
  exists m. split; [exact Hrun|].
  assert ((WeeklyMetrics.adherence_rate m == 1)%Q) as Hadh'
    by (rewrite Hadh; reflexivity).
  assert ((WeeklyMetrics.average_rpe m == 68 # 10)%Q) as Havg'
    by (rewrite Havg; reflexivity).
  split; [exact Hadh'|]. split; [exact Havg'|].
  split; [apply Hstrength; rewrite Hadh', Havg'; split; reflexivity|].
  split; [exact Hend|].
  split; [apply Himp; rewrite Havg'; reflexivity|].
  apply Hcalm. rewrite Havg'. discriminate.
Defined.

(** C6, counterexample.  Six logs against the five-day plan: the stage
    returns with the metrics field still unset and the stage tag not
    advanced. *)
Lemma metrics_six_logs_unset :
  ∃ state',
    _metrics_calculation_node week1_state (world six_logs)
      = (Return state', world six_logs)
    ∧ WorkoutState.metrics state' = None
    ∧ WorkoutState.workflow_stage state' = "plan_generation"
    ∧ WorkoutState.error_context state'
      = Some "Metrics calculation error: ValidationError".
Proof. eexists. split; [reflexivity|]. repeat split. Qed.

(** C10, counterexample.  One log against a current plan without days:
    the logs outnumber the planned sessions, and the stage stores no
    metrics, but the failure is the division by zero in the adherence
    rate; WeeklyMetrics is never constructed and its bound never
    checked. *)
Lemma metrics_no_day_plan_division :
  get_week_logs "alex" 1 (world [log 1 monday 7])
  = (Return [log 1 monday 7], world [log 1 monday 7])
  ∧ total_planned no_day_state < Z.of_nat (length [log 1 monday 7])
  ∧ ∃ state',
      _metrics_calculation_node no_day_state (world [log 1 monday 7])
        = (Return state', world [log 1 monday 7])
      ∧ WorkoutState.metrics state' = None
      ∧ WorkoutState.error_context state'
        = Some "Metrics calculation error: division by zero".
Proof.
  split; [reflexivity|]. split; [reflexivity|].
  eexists. split; [reflexivity|]. split; reflexivity.
Qed.

Lemma metrics_node_too_many_logs_witness :
  (WorkoutState.user_profile week1_state = Some alex
   ∧ get_week_logs "alex" 1 (world six_logs) = (Return six_logs, world six_logs)
   ∧ total_planned week1_state < Z.of_nat (length six_logs))
  ∧ ∃ state',
      _metrics_calculation_node week1_state (world six_logs)
        = (Return state', world six_logs)
      ∧ WorkoutState.metrics state' = None
      ∧ WorkoutState.error_context state'
        = Some ("Metrics calculation error: " +:+ str_exn ValidationError).
Proof.
  assert (total_planned week1_state < Z.of_nat (length six_logs)) as Hlt
    by reflexivity.
  split; [by repeat split|].
  destruct (metrics_node_too_many_logs week1_state (world six_logs) alex six_logs
              eq_refl eq_refl Hlt)
    as (state' & Hrun & Hmetrics & _ & Herr).
  exists state'. split; [exact Hrun|]. split; [exact Hmetrics|exact Herr].
Defined.

Lemma metrics_node_no_logs_witness :
  (WorkoutState.user_profile week1_state = Some alex
   ∧ get_week_logs "alex" 1 (world []) = (Return [], world []))
  ∧ ∃ state',
      _metrics_calculation_node week1_state (world []) = (Return state', world [])
      ∧ WorkoutState.metrics state' = None
      ∧ WorkoutState.workflow_stage state' = "metrics_calculated".
Proof.
  split; [by split|].
  destruct (metrics_node_no_logs week1_state (world []) alex eq_refl eq_refl)
    as (state' & Hrun & _ & Hunset & _ & Hstage).
  exists state'. split; [exact Hrun|]. split; [exact (Hunset eq_refl)|exact Hstage].
Defined.

(** *** Adaptation *)


(** *** Ownership *)

(** A plan generated for one user is not handed to another: looked up by
    its id, it is returned to its owner and absent for anyone else. *)
Lemma generated_plan_lookup :
  ∃ plan w',
    generate_plan outage "alex" 1 (world []) = (Return plan, w')
    ∧ length (WorkoutPlan.days plan) = 5%nat
    ∧ get_plan (WorkoutPlan.plan_id plan) "alex" w' = (Return (Some plan), w')
    ∧ get_plan (WorkoutPlan.plan_id plan) "sam" w' = (Return None, w').
Proof. eexists _, _. split; [reflexivity|]. repeat split. Qed.

(** *** Validation and repair *)

Lemma rough_plan_findings :
  _validate_plan_structure rough_plan (Some alex)
  = Return ["monday has no exercises"; "tuesday exceeds time limit"].
Proof. reflexivity. Qed.

Lemma rough_plan_repaired :
  ∃ repaired,
    repair rough_plan (Some alex) = Return repaired
    ∧ List.map DayPlan.exercises (WorkoutPlan.days repaired)
      = [ [placeholder_exercise];
          [PlannedExercise.mk "squats" "Bodyweight Squats" 3 "12-20" 60 7 None] ]
    ∧ List.map DayPlan.estimated_duration (WorkoutPlan.days repaired) = [30; 75]
    ∧ repair repaired (Some alex) = Return repaired.
Proof. eexists. split; [reflexivity|]. repeat split. Qed.
End Examples.

(** * Further verification *)

(** ** Repository round trips *)

Section Repository.


Lemma save_workout_plan_run plan w :
  save_workout_plan plan w
  = if fits_int64 (WorkoutPlan.week_number plan)
    then (Return tt,
          mkWorld (mkDatabase (users (db w))
                     (<[WorkoutPlan.plan_id plan := plan]> (workout_plans (db w)))
                     (workout_logs (db w)))
                  (uuids_drawn w))
    else (Raise OverflowError, w).
Proof. reflexivity. Qed.


Lemma in_week_true d user_id week_number wl :
  in_week d user_id week_number wl = true
  ↔ WorkoutLog.user_id wl = user_id
    ∧ ∃ plan, workout_plans d !! WorkoutLog.plan_id wl = Some plan
              ∧ WorkoutPlan.week_number plan = week_number.
Proof.
  unfold in_week. rewrite andb_true_iff, String.eqb_eq.
  destruct (workout_plans d !! WorkoutLog.plan_id wl) as [plan|].
  - rewrite Z.eqb_eq. split.
    + intros [? ?]. eauto.
    + intros [? (plan' & [= <-] & ?)]. done.
  - split; [by intros [_ ?]|]. by intros [_ (plan' & ? & _)].
Qed.

Lemma get_week_logs_run user_id week_number w :
  get_week_logs user_id week_number w
  = if fits_int64 week_number
    then (Return (List.filter (in_week (db w) user_id week_number)
                              (workout_logs (db w))), w)
    else (Raise OverflowError, w).
Proof. reflexivity. Qed.

(** What a successful week query says about its arguments and result. *)
Lemma get_week_logs_returns user_id week_number w logs w' :
  get_week_logs user_id week_number w = (Return logs, w') →
  fits_int64 week_number = true
  ∧ logs = List.filter (in_week (db w) user_id week_number) (workout_logs (db w))
  ∧ w' = w.
Proof.
  rewrite get_week_logs_run. destruct (fits_int64 week_number); [|done].
  by intros [= <- <-].
Qed.

(** X3.  For a week number that can be bound to the query, the week
    query returns exactly the stored logs that carry the requested user
    id and whose plan id names a stored plan of the requested week:
    never a log of another user, never a log whose plan is not in the
    repository.  For a week number that cannot be bound it raises an
    overflow error.  In both cases it changes nothing. *)
Theorem get_week_logs_exact (user_id : string) (week_number : Z) (w : World) :
  (fits_int64 week_number = false →
   get_week_logs user_id week_number w = (Raise OverflowError, w))
  ∧ (fits_int64 week_number = true →
     ∃ logs,
       get_week_logs user_id week_number w = (Return logs, w)
       ∧ (∀ wl, In wl logs
                ↔ In wl (workout_logs (db w))
                  ∧ WorkoutLog.user_id wl = user_id
                  ∧ ∃ plan,
                      workout_plans (db w) !! WorkoutLog.plan_id wl = Some plan
                      ∧ WorkoutPlan.week_number plan = week_number)
       ∧ (length logs <= length (workout_logs (db w)))%nat).
Proof.
  rewrite get_week_logs_run. split; intros Hfits; rewrite Hfits; [done|].
  eexists. split; [reflexivity|]. split.
  - intros wl. rewrite filter_In, in_week_true. tauto.
  - apply List.filter_length_le.
Qed.
End Repository.

(** ** Logging a session *)

Section Logging.
Context {rt : Runtime}.
Variable env : Env.


Lemma log_workout_run user_id log_data w :
  log_workout env user_id log_data w
  = if negb (fits_int64 (WorkoutLogCreate.session_rpe log_data)
             && fits_int64 (WorkoutLogCreate.duration_minutes log_data))
    then (InsertRaises OverflowError, mkWorld (db w) (S (uuids_drawn w)))
    else if has_log_id (uuid4 env (uuids_drawn w)) (workout_logs (db w))
    then (IntegrityError, mkWorld (db w) (S (uuids_drawn w)))
    else (Inserted (uuid4 env (uuids_drawn w)),
          mkWorld (mkDatabase (users (db w)) (workout_plans (db w))
                     (workout_logs (db w)
                      ++ [log_of (uuid4 env (uuids_drawn w)) user_id log_data]))
                  (S (uuids_drawn w))).
Proof.
  unfold log_workout, save_workout_log. cbn.
  destruct (negb _); [done|].
  by destruct (has_log_id _ _).
Qed.


Lemma log_workout_inserted user_id log_data w log_id w' :
  log_workout env user_id log_data w = (Inserted log_id, w') →
  workout_logs (db w') = workout_logs (db w) ++ [log_of log_id user_id log_data]
  ∧ workout_plans (db w') = workout_plans (db w)
  ∧ users (db w') = users (db w).
Proof.
  rewrite log_workout_run. destruct (negb _); [done|].
  destruct (has_log_id _ _); [done|].
  by intros [= <- <-].
Qed.

Lemma week_logs_after_log user_id log_data w log_id w' reader week_number :
  log_workout env user_id log_data w = (Inserted log_id, w') →
  List.filter (in_week (db w') reader week_number) (workout_logs (db w'))
  = List.filter (in_week (db w) reader week_number) (workout_logs (db w))
    ++ (if in_week (db w) reader week_number (log_of log_id user_id log_data)
        then [log_of log_id user_id log_data] else []).
Proof.
  intros H. apply log_workout_inserted in H as (Hlogs & Hplans & _).
  assert (∀ wl, in_week (db w') reader week_number wl
                = in_week (db w) reader week_number wl) as Hext
    by (intros wl; unfold in_week; by rewrite Hplans).
  rewrite Hlogs, List.filter_app, !(List.filter_ext _ _ Hext).
  reflexivity.
Qed.

(** X5.  Once a session is logged, the week query, asked for a week
    number that can be bound, returns for the logging user one more log,
    the new one, when the week is that of the stored plan the session
    names; it returns the logs it returned before for every other week,
    for every week when the plan is not stored, and for every other
    user.  The order of the rows is left open.  Asked for a week number
    that cannot be bound, the query raises an overflow error before and
    after. *)
Theorem logged_session_in_week (user_id : string) (log_data : WorkoutLogCreate.t)
    (w : World) (log_id : string) (w' : World) :
  log_workout env user_id log_data w = (Inserted log_id, w') →
  ∀ reader week_number,
    (fits_int64 week_number = false →
     get_week_logs reader week_number w = (Raise OverflowError, w)
     ∧ get_week_logs reader week_number w' = (Raise OverflowError, w'))
    ∧ (fits_int64 week_number = true →
       ∃ before after,
         get_week_logs reader week_number w = (Return before, w)
         ∧ get_week_logs reader week_number w' = (Return after, w')
         ∧ ((reader = user_id
             ∧ ∃ plan,
                 workout_plans (db w) !! WorkoutLogCreate.plan_id log_data
                 = Some plan
                 ∧ WorkoutPlan.week_number plan = week_number)
            → after ≡ₚ log_of log_id user_id log_data :: before)
         ∧ (¬ (reader = user_id
               ∧ ∃ plan,
                   workout_plans (db w) !! WorkoutLogCreate.plan_id log_data
                   = Some plan
                   ∧ WorkoutPlan.week_number plan = week_number)
            → after ≡ₚ before)).
Proof.
  intros Hlog reader week_number.
  rewrite !get_week_logs_run.
  split; intros Hfits; rewrite Hfits; [done|].
  eexists _, _.
  split; [reflexivity|]. split; [reflexivity|].
  rewrite (week_logs_after_log _ _ _ _ _ reader week_number Hlog).
  pose proof (in_week_true (db w) reader week_number (log_of log_id user_id log_data))
    as Hin. cbn in Hin.
  destruct (in_week _ _ _ _).
  - split; [intros _; symmetry; apply Permutation_cons_append|].
    intros Hnot. exfalso. apply Hnot.
    destruct Hin as [Hin _]. destruct (Hin eq_refl) as [-> ?]. done.
  - split; [|by rewrite app_nil_r].
    intros [-> Hplan]. destruct Hin as [_ Hin]. by specialize (Hin (conj eq_refl Hplan)).
Qed.
End Logging.

(** ** From a logged session to the metrics *)

Section LoggedMetrics.
Context {rt : Runtime}.
Variable env : Env.

Lemma sum_session_rpe_app logs wl :
  sum_session_rpe (logs ++ [wl]) = sum_session_rpe logs + WorkoutLog.session_rpe wl.
Proof. unfold sum_session_rpe. by rewrite fold_left_app. Qed.

(** The state the metrics stage returns on a non-empty week that fits the
    plan. *)
Lemma metrics_node_run state w p logs :
  WorkoutState.user_profile state = Some p →
  get_week_logs (UserProfile.user_id p) (WorkoutState.current_week state) w
    = (Return logs, w) →
  logs ≠ [] →
  Z.of_nat (length logs) <= total_planned state →
  ∃ m,
    _metrics_calculation_node state w
      = (Return (WorkoutState.set_workflow_stage "metrics_calculated"
                   (WorkoutState.set_metrics (Some m) state)), w)
    ∧ WeeklyMetrics.completed_sessions m = Z.of_nat (length logs)
    ∧ WeeklyMetrics.total_planned_sessions m = total_planned state
    ∧ WeeklyMetrics.adherence_rate m
      = (inject_Z (Z.of_nat (length logs)) / inject_Z (total_planned state))%Q
    ∧ WeeklyMetrics.average_rpe m
      = (inject_Z (sum_session_rpe logs) / inject_Z (Z.of_nat (length logs)))%Q.
Proof.
  intros Hp Hlogs Hne Hle.
  destruct logs as [|l ls]; [done|].
  assert (0 < total_planned state) as Hpos by (simpl in Hle; lia).
  unfold _metrics_calculation_node, try_except, bind.
  rewrite Hp. cbn [deref ret]. rewrite Hlogs.
  fold (total_planned state).
  unfold lift, truediv.
  assert ((total_planned state =? 0) = false) as -> by (apply Z.eqb_neq; lia).
  assert ((Z.of_nat (length (l :: ls)) =? 0) = false) as ->
    by (apply Z.eqb_neq; simpl; lia).
  unfold WeeklyMetrics_new.
  rewrite ratio_in_unit_interval by lia.
  assert ((Z.of_nat (length (l :: ls)) <=? total_planned state) = true) as ->
    by (apply Z.leb_le; lia).
  eexists. split; [reflexivity|]. by cbn.
Qed.

(** X6.  A session logged against a stored plan of the state's week is
    counted by the next metrics run: when the week's logs, the new one
    included, do not outnumber the planned sessions, the stage stores
    metrics whose completed-session count is the earlier count plus one,
    whose adherence is that count over the planned sessions, and whose
    average exertion is the earlier sum plus the session's exertion, over
    that count. *)
Theorem logged_session_counts (state : WorkoutState.t) (p : UserProfile.t)
    (log_data : WorkoutLogCreate.t) (plan : WorkoutPlan.t)
    (w w' : World) (log_id : string) (before : list WorkoutLog.t) :
  WorkoutState.user_profile state = Some p →
  workout_plans (db w) !! WorkoutLogCreate.plan_id log_data = Some plan →
  WorkoutPlan.week_number plan = WorkoutState.current_week state →
  get_week_logs (UserProfile.user_id p) (WorkoutState.current_week state) w
    = (Return before, w) →
  Z.of_nat (length before) + 1 <= total_planned state →
  log_workout env (UserProfile.user_id p) log_data w = (Inserted log_id, w') →
  ∃ m,
    _metrics_calculation_node state w'
      = (Return (WorkoutState.set_workflow_stage "metrics_calculated"
                   (WorkoutState.set_metrics (Some m) state)), w')
    ∧ WeeklyMetrics.completed_sessions m = Z.of_nat (length before) + 1
    ∧ WeeklyMetrics.adherence_rate m
      = (inject_Z (Z.of_nat (length before) + 1) / inject_Z (total_planned state))%Q
    ∧ WeeklyMetrics.average_rpe m
      = (inject_Z (sum_session_rpe before + WorkoutLogCreate.session_rpe log_data)
         / inject_Z (Z.of_nat (length before) + 1))%Q.
Proof.
  intros Hp Hplan Hweek Hbefore Hle Hlog.
  pose proof (week_logs_after_log env _ _ _ _ _ (UserProfile.user_id p)
                (WorkoutState.current_week state) Hlog) as Hafter.
  assert (in_week (db w) (UserProfile.user_id p) (WorkoutState.current_week state)
            (log_of log_id (UserProfile.user_id p) log_data) = true) as Hin.
  { apply in_week_true. cbn. eauto. }
  rewrite Hin in Hafter.
  apply get_week_logs_returns in Hbefore as (Hfits & Hbefore & _).
  rewrite <- Hbefore in Hafter.
  assert (Z.of_nat (length (before ++ [log_of log_id (UserProfile.user_id p) log_data]))
          = Z.of_nat (length before) + 1) as Hlen
    by (rewrite length_app; simpl; lia).
  destruct (metrics_node_run state w' p
              (before ++ [log_of log_id (UserProfile.user_id p) log_data]))
    as (m & Hrun & Hc & _ & Hadh & Havg).
  - done.
  - rewrite get_week_logs_run, Hfits. by rewrite Hafter.
  - by destruct before.
  - lia.
  - exists m. split; [exact Hrun|].
    rewrite Hc, Hadh, Havg, Hlen, sum_session_rpe_app. done.
Qed.
End LoggedMetrics.

(** ** The generation path *)

Section GenerationPath.
Context {rt : Runtime}.
Variable env : Env.





End GenerationPath.

(** ** The adaptation stages *)

Section AdaptationStages.
Context {rt : Runtime}.
Variable env : Env.

(** X9.  Without feedback text (no entry, or a falsy one) the
    feedback stage makes no model call: for every model outcome it
    returns the state with only the stage tag advanced.  With text, a
    decodable answer is stored under insights while every other entry of
    the scratch area is kept; a failed call or an undecodable answer is
    noted, and then the scratch area and the stage tag stay as they
    were. *)
Theorem feedback_analysis_node_outcome (state : WorkoutState.t) (w : World) :
  let feedback_text :=
    default (JString "") (WorkoutState.feedback_analysis state !! "raw_feedback") in
  (truthy feedback_text = false →
   ∀ env',
     _feedback_analysis_node env' state w
     = (Return (WorkoutState.set_workflow_stage "feedback_analyzed" state), w))
  ∧ (truthy feedback_text = true →
     ∃ state',
       _feedback_analysis_node env state w = (Return state', w)
       ∧ ((∃ response insights,
             llm env = LlmReplies response
             ∧ json_loads response = Some insights
             ∧ WorkoutState.feedback_analysis state' !! "insights" = Some insights
             ∧ (∀ key, key ≠ "insights" →
                  WorkoutState.feedback_analysis state' !! key
                  = WorkoutState.feedback_analysis state !! key)
             ∧ WorkoutState.workflow_stage state' = "feedback_analyzed"
             ∧ WorkoutState.error_context state' = WorkoutState.error_context state)
          ∨ ((llm env = LlmRaises
              ∨ ∃ response, llm env = LlmReplies response
                            ∧ json_loads response = None)
             ∧ WorkoutState.feedback_analysis state'
               = WorkoutState.feedback_analysis state
             ∧ WorkoutState.workflow_stage state' = WorkoutState.workflow_stage state
             ∧ ∃ e, WorkoutState.error_context state'
                    = Some ("Feedback analysis error: " +:+ str_exn e)))).
Proof.
  intros feedback_text. subst feedback_text. split.
  - intros Hfalse env'.
    unfold _feedback_analysis_node, try_except, bind. by rewrite Hfalse.
  - intros Htrue.
    unfold _feedback_analysis_node, try_except, bind, ainvoke, lift, loads, ret, raise.
    rewrite Htrue.
    destruct (llm env) as [|response] eqn:Hllm.
    + eexists. split; [reflexivity|]. right. cbn [WorkoutState.feedback_analysis
        WorkoutState.workflow_stage WorkoutState.error_context note_error
        WorkoutState.set_error_context].
      split; [by left|]. split; [done|]. split; [done|]. by exists ModelCallError.
    + destruct (json_loads response) as [insights|] eqn:Hloads.
      * eexists. split; [reflexivity|]. left. exists response, insights. cbn.
        rewrite lookup_insert_eq. repeat split; try done.
        intros key Hne. by rewrite lookup_insert_ne.
      * eexists. split; [reflexivity|]. right. cbn [WorkoutState.feedback_analysis
          WorkoutState.workflow_stage WorkoutState.error_context note_error
          WorkoutState.set_error_context].
        split; [right; by exists response|]. split; [done|]. split; [done|].
        by exists JSONDecodeError.
Qed.

Lemma mapM_as_str_strings (tags : list string) :
  mapM as_str (List.map JString tags) = Some tags.
Proof.
  induction tags as [|t ts IH]; [done|]. cbn. rewrite IH. done.
Qed.

Lemma adaptation_node_run state w insights pain conflicts :
  insights_of state = Some insights →
  flag_list insights "pain_flags" = Some pain →
  flag_list insights "schedule_conflicts" = Some conflicts →
  _adaptation_decision_node state w
  = (Return
       (WorkoutState.set_workflow_stage "adaptation_decided"
          (WorkoutState.set_adaptation_context
             (<["reasoning" :=
                  JString (_build_adaptation_reasoning (WorkoutState.metrics state)
                             (JObject insights))]>
                (<["adaptations" :=
                     JArray (List.map JString
                       (fired_tags (reduce_rule (WorkoutState.metrics state))
                                   (deload_rule (WorkoutState.metrics state))
                                   (negb (Nat.eqb (length pain) 0))
                                   (negb (Nat.eqb (length conflicts) 0))))]> ∅))
             state)), w).
Proof.
  intros Hins Hpain Hconf.
  unfold _adaptation_decision_node, try_except, bind, lift, ret.
  assert (default (JObject ∅) (WorkoutState.feedback_analysis state !! "insights")
          = JObject insights) as ->.
  { unfold insights_of in Hins.
    destruct (WorkoutState.feedback_analysis state !! "insights") as [[]|];
      by inversion Hins. }
  cbn [py_get].
  rewrite (truthy_flag_list _ _ _ Hpain), (truthy_flag_list _ _ _ Hconf).
  unfold fired_tags, reduce_rule, deload_rule.
  destruct (WorkoutState.metrics state) as [m|];
    [destruct (Qltb (WeeklyMetrics.adherence_rate m) (3 # 5));
     destruct (Qltb (17 # 2) (WeeklyMetrics.average_rpe m))|];
    destruct (negb (Nat.eqb (length pain) 0));
    destruct (negb (Nat.eqb (length conflicts) 0)); reflexivity.
Qed.

Lemma fired_tags_nil reduce deload substitute retime :
  fired_tags reduce deload substitute retime = []
  ↔ reduce = false ∧ deload = false ∧ substitute = false ∧ retime = false.
Proof. destruct reduce, deload, substitute, retime; cbn; intuition congruence. Qed.

(** X10.  The rationale stage run on what the decision stage left: when
    no rule fired, it stores the fixed message for every model outcome,
    without calling the model; when a rule fired, it stores the model's
    answer, or notes the failed call and stores no rationale.  In each
    case the chosen actions stay in the scratch area. *)
Theorem rationale_after_decision (state : WorkoutState.t) (w : World)
    insights pain conflicts :
  insights_of state = Some insights →
  flag_list insights "pain_flags" = Some pain →
  flag_list insights "schedule_conflicts" = Some conflicts →
  ∃ decided tags,
    _adaptation_decision_node state w = (Return decided, w)
    ∧ tags = fired_tags (reduce_rule (WorkoutState.metrics state))
                        (deload_rule (WorkoutState.metrics state))
                        (negb (Nat.eqb (length pain) 0))
                        (negb (Nat.eqb (length conflicts) 0))
    ∧ (tags = [] →
       ∀ env',
         ∃ state',
           _rationale_generation_node env' decided w = (Return state', w)
           ∧ WorkoutState.adaptation_context state' !! "rationale"
             = Some (JString "Great work this week! Continuing with progressive overload.")
           ∧ WorkoutState.adaptation_context state' !! "adaptations"
             = Some (JArray [])
           ∧ WorkoutState.workflow_stage state' = "rationale_generated")
    ∧ (tags ≠ [] →
       ∃ state',
         _rationale_generation_node env decided w = (Return state', w)
         ∧ WorkoutState.adaptation_context state' !! "adaptations"
           = Some (JArray (List.map JString tags))
         ∧ match llm env with
           | LlmReplies response =>
               WorkoutState.adaptation_context state' !! "rationale"
               = Some (JString response)
               ∧ WorkoutState.workflow_stage state' = "rationale_generated"
           | LlmRaises =>
               WorkoutState.adaptation_context state' !! "rationale" = None
               ∧ WorkoutState.workflow_stage state' = "adaptation_decided"
               ∧ WorkoutState.error_context state'
                 = Some ("Rationale generation error: " +:+ str_exn ModelCallError)
           end).
Proof.
  intros Hins Hpain Hconf.
  rewrite (adaptation_node_run state w insights pain conflicts Hins Hpain Hconf).
  eexists _, _. split; [reflexivity|]. split; [reflexivity|].
  remember (fired_tags _ _ _ _) as tags eqn:Etags. clear Etags.
  unfold _rationale_generation_node, try_except, bind, lift, ret.
  cbn [WorkoutState.adaptation_context WorkoutState.set_workflow_stage
       WorkoutState.set_adaptation_context].
  rewrite (lookup_insert_ne _ "reasoning" "adaptations") by done.
  rewrite lookup_insert_eq. cbn [default from_option]. unfold id.
  split.
  - intros -> env'. cbn.
    eexists. split; [reflexivity|]. cbn.
    rewrite lookup_insert_eq.
    rewrite (lookup_insert_ne _ "rationale" "adaptations") by done.
    rewrite (lookup_insert_ne _ "reasoning" "adaptations") by done.
    by rewrite lookup_insert_eq.
  - intros Htags.
    assert (truthy (JArray (List.map JString tags)) = true) as ->
      by (destruct tags; [done|reflexivity]).
    unfold py_join. cbn [py_iter rbind]. rewrite mapM_as_str_strings.
    unfold ainvoke, raise, ret, note_error.
    destruct (llm env) as [|response]; eexists; (split; [reflexivity|]); cbn.
    + rewrite (lookup_insert_ne _ "reasoning" "adaptations") by done.
      rewrite lookup_insert_eq.
      rewrite (lookup_insert_ne _ "reasoning" "rationale") by done.
      rewrite (lookup_insert_ne _ "adaptations" "rationale") by done.
      by rewrite lookup_empty.
    + rewrite lookup_insert_eq.
      rewrite (lookup_insert_ne _ "rationale" "adaptations") by done.
      rewrite (lookup_insert_ne _ "reasoning" "adaptations") by done.
      by rewrite lookup_insert_eq.
Qed.
End AdaptationStages.


(** ** Generating, reading back and adapting *)

Section PlanLifecycle.
Context {rt : Runtime}.
Variable env : Env.


Lemma adapt_plan_overflow user_id week_number w :
  fits_int64 week_number = false →
  adapt_plan env user_id week_number w = (Raise OverflowError, w).
Proof.
  intros Hfits.
  unfold adapt_plan, bind, get_user_profile.
  by rewrite get_week_logs_run, Hfits.
Qed.

Lemma adapt_plan_no_profile user_id week_number w :
  fits_int64 week_number = true →
  users (db w) !! user_id = None →
  adapt_plan env user_id week_number w
  = (Raise (ValueError "User profile not found"), w).
Proof.
  intros Hfits Hp.
  unfold adapt_plan, bind, get_user_profile.
  rewrite get_week_logs_run, Hfits.
  unfold generate_plan, bind, get_user_profile. by rewrite Hp.
Qed.

(** The run of [adapt_plan] once the week query has returned, for a
    stored profile. *)
Lemma adapt_plan_run user_id week_number w profile :
  fits_int64 week_number = true →
  users (db w) !! user_id = Some profile →
  ∃ plan n,
    generate_plan env user_id (week_number + 1) w
    = (if fits_int64 (week_number + 1)
       then (Return plan,
             mkWorld (mkDatabase (users (db w))
                        (<[WorkoutPlan.plan_id plan := plan]> (workout_plans (db w)))
                        (workout_logs (db w))) n)
       else (Raise OverflowError, mkWorld (db w) n))
    ∧ adapt_plan env user_id week_number w
      = (if fits_int64 (week_number + 1)
         then (Return (AdaptationResponse.mk (uuid4 env n)
                         "Plan adapted based on your progress and feedback"
                         (WorkoutPlan.plan_id plan)
                         ["Increased intensity"; "Added new exercises"]),
               mkWorld (mkDatabase (users (db w))
                          (<[WorkoutPlan.plan_id plan := plan]>
                             (workout_plans (db w)))
                          (workout_logs (db w))) (S n))
         else (Raise OverflowError, mkWorld (db w) n))
    ∧ WorkoutPlan.week_number plan = week_number + 1
    ∧ WorkoutPlan.user_id plan = UserProfile.user_id profile.
Proof.
  intros Hfits Hp.
  destruct (generate_plan_run env user_id (week_number + 1) w profile Hp)
    as (plan & n & Hrun & Hu & Hw & _).
  exists plan, n. split; [exact Hrun|]. split; [|done].
  unfold adapt_plan, bind, get_user_profile.
  rewrite get_week_logs_run, Hfits, Hrun.
  by destruct (fits_int64 (week_number + 1)).
Qed.

End PlanLifecycle.

(** ** The calendar *)

Section CalendarDates.
Context {rt : Runtime}.
Variable today : Z.
Variable str_title : string → string.

(** X13.  The first day of the exported week is the next monday: a
    monday strictly after today and at most seven days ahead, with no
    monday in between; on a monday it is the monday of the week after. *)
Theorem start_date_next_monday :
  weekday (start_date today) = 0
  ∧ today < start_date today ≤ today + 7
  ∧ (∀ d, today < d < start_date today → weekday d ≠ 0)
  ∧ (weekday today = 0 → start_date today = today + 7).
Proof.
  unfold start_date, days_until_monday, weekday.
  destruct (Z.eqb_spec ((7 - (today + 6) mod 7) mod 7) 0) as [H0|H0].
  - repeat split; try lia.
    + Z.to_euclidean_division_equations. lia.
    + intros d Hd. Z.to_euclidean_division_equations. lia.
  - repeat split.
    + Z.to_euclidean_division_equations. lia.
    + Z.to_euclidean_division_equations. lia.
    + Z.to_euclidean_division_equations. lia.
    + intros d Hd. Z.to_euclidean_division_equations. lia.
    + intros Hm. Z.to_euclidean_division_equations. lia.
Qed.

Lemma day_mapping_index (d : WorkoutDay) :
  day_mapping !! str_lower (WorkoutDay_value d) = Some (WorkoutDay_index d).
Proof. by destruct d. Qed.

(** X14.  Every event of an exported plan falls on the weekday its day
    names, in the week that starts at the next monday; it starts at nine
    in the morning, lasts the estimated duration of the day, and carries
    one reminder fifteen minutes before the start. *)
Theorem event_schedule (plan : WorkoutPlan.t) (workout_day : DayPlan.t) :
  let event := event_of today str_title plan workout_day in
  date_of (dtstart event)
  = start_date today + WorkoutDay_index (DayPlan.day workout_day)
  ∧ weekday (date_of (dtstart event)) = WorkoutDay_index (DayPlan.day workout_day)
  ∧ minute_of_day (dtstart event) = 9 * 60
  ∧ dtend event - dtstart event = DayPlan.estimated_duration workout_day
  ∧ List.map alarm_trigger (alarms event) = [-15].
Proof.
  cbn zeta. unfold event_of. cbn [dtstart dtend alarms List.map alarm_trigger].
  rewrite day_mapping_index. cbn [default from_option]. unfold id.
  assert (weekday (start_date today) = 0) as Hmon.
  { unfold start_date, days_until_monday, weekday.
    destruct (Z.eqb_spec ((7 - (today + 6) mod 7) mod 7) 0);
      Z.to_euclidean_division_equations; lia. }
  unfold date_of, minute_of_day, datetime_combine.
  assert (0 ≤ WorkoutDay_index (DayPlan.day workout_day) ≤ 4) as Hidx
    by (destruct (DayPlan.day workout_day); cbn; lia).
  revert Hmon. unfold weekday.
  generalize (WorkoutDay_index (DayPlan.day workout_day)) Hidx.
  generalize (start_date today). intros s i Hi Hmon.
  repeat split; try lia; Z.to_euclidean_division_equations; lia.
Qed.
End CalendarDates.

Section CalendarExport.
Context {rt : Runtime}.
Variable today : Z.
Variable str_title : string → string.




(** The dates exist for the plans met in practice: on any day up to the
    middle of December 9999, for days of at most fifteen hours. *)
Lemma dates_in_range_usual (plan : WorkoutPlan.t) :
  1 <= today <= 3652059 - 11 →
  Forall (λ workout_day, 0 <= DayPlan.estimated_duration workout_day <= 899)
    (WorkoutPlan.days plan) →
  dates_in_range today str_title plan = true.
Proof.
  intros Htoday Hdays.
  assert (today < start_date today <= today + 7) as Hstart.
  { unfold start_date, days_until_monday, weekday.
    destruct (Z.eqb_spec ((7 - (today + 6) mod 7) mod 7) 0);
      Z.to_euclidean_division_equations; lia. }
  unfold dates_in_range. apply andb_true_iff. split.
  - unfold valid_date. apply andb_true_iff. split; [apply Z.leb_le|apply Z.leb_le]; lia.
  - apply forallb_forall. intros workout_day Hin.
    rewrite List.Forall_forall in Hdays. specialize (Hdays _ Hin).
    unfold event_fits, valid_moment, valid_date, event_of.
    cbn [dtstart dtend]. rewrite day_mapping_index. cbn [default from_option].
    unfold id, date_of, datetime_combine.
    assert (0 <= WorkoutDay_index (DayPlan.day workout_day) <= 4) as Hidx
      by (destruct (DayPlan.day workout_day); cbn; lia).
    revert Hidx Hdays Hstart.
    generalize (WorkoutDay_index (DayPlan.day workout_day)).
    generalize (DayPlan.estimated_duration workout_day).
    generalize (start_date today). intros s d i Hi Hd Hs.
    rewrite !andb_true_iff, !Z.leb_le.
    repeat split; Z.to_euclidean_division_equations; lia.
Qed.
End CalendarExport.

(** ** The handlers *)

Section HandlerProperties.
Context {rt : Runtime}.
Variable env : Env.




End HandlerProperties.

(** ** The keys of the repository *)

Section Keys.
Context {rt : Runtime}.
Variable env : Env.

Lemma keyed_save_user_profile p w :
  keyed (db w) → keyed (db (snd (save_user_profile p w))).
Proof.
  intros (Hu & Hp & Hl). split; [|done]. cbn.
  by apply map_Forall_insert_2.
Qed.

Lemma keyed_insert_plan d plan :
  keyed d →
  keyed (mkDatabase (users d) (<[WorkoutPlan.plan_id plan := plan]> (workout_plans d))
           (workout_logs d)).
Proof.
  intros (Hu & Hp & Hl). split; [done|]. split; [|done]. cbn.
  by apply map_Forall_insert_2.
Qed.

Lemma keyed_save_workout_plan plan w :
  keyed (db w) → keyed (db (snd (save_workout_plan plan w))).
Proof.
  intros Hk. rewrite save_workout_plan_run.
  destruct (fits_int64 _); [|done]. by apply keyed_insert_plan.
Qed.

Lemma has_log_id_false log_id logs :
  has_log_id log_id logs = false →
  log_id ∉ List.map WorkoutLog.log_id logs.
Proof.
  unfold has_log_id. induction logs as [|l ls IH]; cbn.
  - intros _. apply not_elem_of_nil.
  - intros [Hl Hls]%orb_false_elim. apply not_elem_of_cons. split.
    + intros ->. by rewrite String.eqb_refl in Hl.
    + by apply IH.
Qed.

Lemma keyed_save_workout_log log w :
  keyed (db w) → keyed (db (snd (save_workout_log log w))).
Proof.
  intros (Hu & Hp & Hl). unfold save_workout_log.
  destruct (negb _); [done|].
  destruct (has_log_id _ _) eqn:Hhas; [done|].
  split; [done|]. split; [done|]. cbn.
  rewrite List.map_app. apply NoDup_app. split; [done|]. split.
  - intros x Hx [->|[]%elem_of_nil]%elem_of_cons.
    by apply (has_log_id_false _ _ Hhas).
  - apply NoDup_singleton.
Qed.

Lemma keyed_generate_plan user_id week_number w :
  keyed (db w) → keyed (db (snd (generate_plan env user_id week_number w))).
Proof.
  intros Hk.
  destruct (users (db w) !! user_id) as [profile|] eqn:Hp.
  - destruct (generate_plan_run env user_id week_number w profile Hp)
      as (plan & n & -> & _).
    destruct (fits_int64 week_number); [|done]. by apply keyed_insert_plan.
  - unfold generate_plan, bind, get_user_profile. by rewrite Hp.
Qed.

Lemma keyed_log_workout user_id log_data w :
  keyed (db w) → keyed (db (snd (log_workout env user_id log_data w))).
Proof.
  intros Hk. unfold log_workout.
  pose proof (keyed_save_workout_log
                (log_of (uuid4 env (uuids_drawn w)) user_id log_data)
                (mkWorld (db w) (S (uuids_drawn w))) Hk) as Hs.
  by destruct (save_workout_log _ _) as [[[]| |e] w2].
Qed.

Lemma keyed_adapt_plan user_id week_number w :
  keyed (db w) → keyed (db (snd (adapt_plan env user_id week_number w))).
Proof.
  intros Hk.
  destruct (fits_int64 week_number) eqn:Hfits;
    [|by rewrite (adapt_plan_overflow env user_id week_number w Hfits)].
  destruct (users (db w) !! user_id) as [profile|] eqn:Hp;
    [|by rewrite (adapt_plan_no_profile env user_id week_number w Hfits Hp)].
  destruct (adapt_plan_run env user_id week_number w profile Hfits Hp)
    as (plan & n & _ & -> & _).
  destruct (fits_int64 (week_number + 1)); [|done]. by apply keyed_insert_plan.
Qed.

(** X19.  The keys of the three tables are kept by every write of the
    repository, by the public methods of the engine that write, and by
    the handlers over them: after each, every profile is still stored
    under its user id, every plan under its plan id, and no two logs
    share a log id. *)
Theorem keyed_preserved (w : World) :
  keyed (db w) →
  (∀ profile, keyed (db (snd (save_user_profile profile w))))
  ∧ (∀ plan, keyed (db (snd (save_workout_plan plan w))))
  ∧ (∀ log, keyed (db (snd (save_workout_log log w))))
  ∧ (∀ user_id week_number,
       keyed (db (snd (generate_plan env user_id week_number w))))
  ∧ (∀ user_id log_data, keyed (db (snd (log_workout env user_id log_data w))))
  ∧ (∀ user_id week_number,
       keyed (db (snd (adapt_plan env user_id week_number w))))
  ∧ (∀ profile current_user,
       keyed (db (snd (create_profile_handler profile current_user w))))
  ∧ (∀ week_number current_user,
       keyed (db (snd (generate_plan_handler env week_number current_user w))))
  ∧ (∀ user_id week_number current_user,
       keyed (db (snd (adapt_plan_handler env user_id week_number current_user w)))).
Proof.
  intros Hk.
  split; [intros; by apply keyed_save_user_profile|].
  split; [intros; by apply keyed_save_workout_plan|].
  split; [intros; by apply keyed_save_workout_log|].
  split; [intros; by apply keyed_generate_plan|].
  split; [intros; by apply keyed_log_workout|].
  split; [intros; by apply keyed_adapt_plan|].
  split; [intros profile current_user; by apply keyed_save_user_profile|].
  split.
  - intros week_number current_user.
    unfold generate_plan_handler, or_500, bind, get_user_profile.
    destruct (users (db w) !! current_user) as [profile|] eqn:Hp.
    + pose proof (keyed_generate_plan current_user week_number w Hk) as Hg.
      cbn -[generate_plan].
      by destruct (generate_plan env current_user week_number w) as [[plan|e] w'].
    + pose proof (keyed_generate_plan current_user week_number _
                    (keyed_save_user_profile (default_profile current_user) w Hk))
        as Hg.
      cbn -[generate_plan default_profile] in Hg |- *.
      by destruct (generate_plan env current_user week_number _) as [[plan|e] w'].
  - intros user_id week_number current_user. unfold adapt_plan_handler.
    destruct (negb (String.eqb user_id current_user)); [done|].
    unfold or_500.
    pose proof (keyed_adapt_plan user_id week_number w Hk) as Ha.
    by destruct (adapt_plan env user_id week_number w) as [[response|e] w'].
Qed.

End Keys.

(** * Further worked examples *)

Module FurtherExamples.
Import Sample SampleRequests.
#[local] Existing Instance reference_runtime.

Lemma sample_world_keyed (logs : list WorkoutLog.t) :
  NoDup (List.map WorkoutLog.log_id logs) → keyed (db (world logs)).
Proof.
  intros Hlogs. split; [|split; [|exact Hlogs]].
  - apply map_Forall_singleton. reflexivity.
  - apply map_Forall_singleton. reflexivity.
Defined.



Lemma logged_session_in_week_witness :
  log_workout outage "alex" session (world []) = (Inserted "plan-0", logged)
  ∧ ∃ after,
      get_week_logs "alex" 1 logged = (Return after, logged)
      ∧ after ≡ₚ [log_of "plan-0" "alex" session].
Proof.
  split; [reflexivity|].
  destruct (logged_session_in_week outage "alex" session (world []) "plan-0" logged
              eq_refl "alex" 1) as [_ Hweek].
  destruct (Hweek eq_refl) as (before & after & Hbefore & Hafter & Hadd & _).
  exists after. split; [exact Hafter|].
  assert (before = []) as -> by (vm_compute in Hbefore; congruence).
  apply Hadd. split; [reflexivity|]. exists week1_plan. split; reflexivity.
Defined.

Lemma logged_session_counts_witness :
  (WorkoutState.user_profile week1_state = Some alex
   ∧ workout_plans (db (world [])) !! WorkoutLogCreate.plan_id session
     = Some week1_plan
   ∧ WorkoutPlan.week_number week1_plan = WorkoutState.current_week week1_state
   ∧ get_week_logs "alex" 1 (world []) = (Return [], world [])
   ∧ Z.of_nat (length (@nil WorkoutLog.t)) + 1 <= total_planned week1_state
   ∧ log_workout outage "alex" session (world []) = (Inserted "plan-0", logged))
  ∧ ∃ m,
      _metrics_calculation_node week1_state logged
        = (Return (WorkoutState.set_workflow_stage "metrics_calculated"
                     (WorkoutState.set_metrics (Some m) week1_state)), logged)
      ∧ WeeklyMetrics.completed_sessions m = 1
      ∧ (WeeklyMetrics.adherence_rate m == 1 # 5)%Q
      ∧ (WeeklyMetrics.average_rpe m == 7)%Q.
Proof.
  assert (Z.of_nat (length (@nil WorkoutLog.t)) + 1 <= total_planned week1_state)
    as Hle by (vm_compute; discriminate).
  split; [by repeat split|].
  destruct (logged_session_counts outage week1_state alex session week1_plan
              (world []) logged "plan-0" [] eq_refl eq_refl eq_refl eq_refl Hle
              eq_refl)
    as (m & Hrun & Hcount & Hadh & Havg).
  exists m. split; [exact Hrun|]. split; [exact Hcount|].
  split; [rewrite Hadh|rewrite Havg]; reflexivity.
Defined.



(** The same path in a week the plan table cannot hold: the stage
    returns with the overflow noted and no plan stored. *)
Lemma generation_workflow_overflow_week :
  ∃ state' w',
    generation_workflow outage far_week_state (world [])
    = (Return state', w')
    ∧ WorkoutState.error_context state'
      = Some ("Plan validation error: " +:+ str_exn OverflowError)
    ∧ workout_plans (db w') = workout_plans (db (world [])).
Proof. eexists _, _. split; [reflexivity|]. split; reflexivity. Qed.

Lemma rationale_after_decision_witness :
  (insights_of strained_state = Some ∅
   ∧ flag_list ∅ "pain_flags" = Some []
   ∧ flag_list ∅ "schedule_conflicts" = Some [])
  ∧ ∃ decided state',
      _adaptation_decision_node strained_state (world []) = (Return decided, world [])
      ∧ _rationale_generation_node prose decided (world []) = (Return state', world [])
      ∧ WorkoutState.adaptation_context state' !! "adaptations"
        = Some (JArray [JString "reduce_volume"; JString "deload_intensity"])
      ∧ WorkoutState.adaptation_context state' !! "rationale"
        = Some (JString "Sorry, I cannot help with that.").
Proof.
  split; [by repeat split|].
  destruct (rationale_after_decision prose strained_state (world []) ∅ [] []
              eq_refl eq_refl eq_refl)
    as (decided & tags & Hdecided & -> & _ & Hfired).
  destruct (Hfired ltac:(discriminate)) as (state' & Hrun & Htags & Hrationale & _).
  by exists decided, state'.
Defined.


Lemma keyed_preserved_witness :
  keyed (db (world []))
  ∧ keyed (db (snd (generate_plan outage "alex" 2 (world []))))
  ∧ keyed (db (snd (log_workout outage "alex" session (world [])))).
Proof.
  pose proof (sample_world_keyed [] (NoDup_nil_2 (A:=string))) as Hk.
  split; [exact Hk|].
  destruct (keyed_preserved outage (world []) Hk)
    as (_ & _ & _ & Hgen & Hlog & _).
  split; [apply Hgen|apply Hlog].
Defined.




(** The export of the plan of week 1 on a wednesday: five events, from
    the monday five days later to the friday of that week. *)
Lemma export_week1_plan :
  ∃ cal,
    export_calendar a_wednesday id "week-1" "alex" (world [])
    = (Return ("exports/workout_plan_week-1.ics", cal), world [])
    ∧ List.map (λ e, date_of (dtstart e)) (events cal) = [8; 9; 10; 11; 12]
    ∧ List.map (λ e, weekday (date_of (dtstart e))) (events cal) = [0; 1; 2; 3; 4].
Proof. eexists. split; [reflexivity|]. split; reflexivity. Qed.

(** A stored, owned plan with a day of ten thousand million minutes: the
    end of its event lies past the last date, and the export raises. *)
Lemma export_endless_day :
  workout_plans (db endless_world) !! "endless" = Some endless_plan
  ∧ WorkoutPlan.user_id endless_plan = "alex"
  ∧ export_calendar a_wednesday id "endless" "alex" endless_world
    = (Raise OverflowError, endless_world).
Proof. split; [reflexivity|]. split; reflexivity. Qed.

(** A session whose duration does not fit the table is not stored. *)
Lemma log_workout_overflow_duration :
  ∃ w',
    log_workout outage "alex"
      (WorkoutLogCreate.mk "week-1" monday [] 7 (2 ^ 63) None) (world [])
    = (InsertRaises OverflowError, w')
    ∧ db w' = db (world []).
Proof. eexists. split; reflexivity. Qed.

(** The endpoints at the first week number out of range. *)
Lemma generate_plan_handler_overflow_week :
  ∃ w',
    generate_plan_handler outage (2 ^ 63) "alex" (world [])
    = (HTTPException 500
         "Plan generation failed: Python int too large to convert to SQLite INTEGER",
       w')
    ∧ workout_plans (db w') = workout_plans (db (world [])).
Proof. eexists. split; reflexivity. Qed.

Lemma adapt_plan_handler_overflow_week :
  adapt_plan_handler outage "sam" (2 ^ 63) "sam" (world [])
  = (HTTPException 500 "Python int too large to convert to SQLite INTEGER",
     world []).
Proof. reflexivity. Qed.
End FurtherExamples.
